(** * Litera backend: the session and choice endpoints of [main.py]

    A shallow embedding of [start_session] and [submit_choice] together
    with the [Player] and [ActionLog] schemas of [schemas.py], and the
    properties of the scoring rules: range preservation, the per-module
    deltas, the error paths and the frame on relationship entries. *)

From Stdlib Require Import ZArith String Ascii List Bool Lia.
From stdpp Require Import base option gmap strings list fin_maps.

Local Open Scope string_scope.
Local Open Scope Z_scope.

Set Warnings "-register-all,-clear-no-such-hyp".

(** ** Python values

    The request payload is a [Dict] decoded from JSON and the outcome is
    a [Dict] built by the handler: null, booleans, integers, strings,
    arrays and objects with string keys.  Numbers with a fractional part
    are outside this model. *)

Inductive pyval : Type :=
| PNone
| PBool (b : bool)
| PInt (z : Z)
| PStr (s : string)
| PList (l : list pyval)
| PDict (d : list (string * pyval)).

(** An object is kept as its items in insertion order; the keys of a
    decoded object are pairwise distinct. *)
Abbreviation pydict := (list (string * pyval)).

Fixpoint assoc_lookup {V : Type} (k : string) (d : list (string * V)) : option V :=
  match d with
  | [] => None
  | (k', v) :: d' => if String.eqb k k' then Some v else assoc_lookup k d'
  end.

(** [d.get(k, dflt)] *)
Definition dict_get (d : pydict) (k : string) (dflt : pyval) : pyval :=
  match assoc_lookup k d with
  | Some v => v
  | None => dflt
  end.

(** Python's [==] on these values: [bool] is a subclass of [int], so
    [True == 1] and [False == 0]; sequences compare item by item and
    dictionaries key by key. *)
Fixpoint py_eq (a b : pyval) {struct a} : bool :=
  match a, b with
  | PNone, PNone => true
  | PBool x, PBool y => Bool.eqb x y
  | PBool x, PInt y => Z.eqb (Z.b2z x) y
  | PInt x, PBool y => Z.eqb x (Z.b2z y)
  | PInt x, PInt y => Z.eqb x y
  | PStr x, PStr y => String.eqb x y
  | PList x, PList y =>
      (fix items_eq (x y : list pyval) {struct x} : bool :=
         match x, y with
         | [], [] => true
         | u :: x', v :: y' => py_eq u v && items_eq x' y'
         | _, _ => false
         end) x y
  | PDict x, PDict y =>
      Nat.eqb (length x) (length y) &&
      (fix keys_eq (x : list (string * pyval)) {struct x} : bool :=
         match x with
         | [] => true
         | (k, u) :: x' =>
             match assoc_lookup k y with
             | Some v => py_eq u v
             | None => false
             end && keys_eq x'
         end) x
  | _, _ => false
  end.

(** Truth value of a Python object, as tested by [if success:]. *)
Definition truthy (v : pyval) : bool :=
  match v with
  | PNone => false
  | PBool b => b
  | PInt z => negb (Z.eqb z 0)
  | PStr s => negb (String.eqb s "")
  | PList l => match l with [] => false | _ => true end
  | PDict d => match d with [] => false | _ => true end
  end.

(** [str.lower] on the ASCII range.  Strings are kept as UTF-8 bytes and
    the bytes of characters outside ASCII are carried through, whereas
    [str.lower] knows the letters of all of Unicode (it takes the Kelvin
    sign to "k"): this is [str.lower] on the strings made of ASCII
    characters, and statements that depend on the lowercase form of
    other strings say so. *)
Definition lower_ascii (c : ascii) : ascii :=
  let n := nat_of_ascii c in
  if (Nat.leb 65 n && Nat.leb n 90)%bool then ascii_of_nat (n + 32) else c.

Fixpoint lower (s : string) : string :=
  match s with
  | EmptyString => EmptyString
  | String c s' => String (lower_ascii c) (lower s')
  end.

(** ** Schemas ([schemas.py]) *)

(** [Player]: the field defaults are those of the pydantic model. *)
Record Player := mkPlayer {
  session_id : string;
  public_trust : Z;
  personal_clout : Z;
  professional_skill : Z;
  relationships : gmap string Z
}.

Definition new_Player (sid : string) : Player :=
  {| session_id := sid;
     public_trust := 50;
     personal_clout := 50;
     professional_skill := 0;
     relationships := ∅ |}.

Record ActionLog := mkActionLog {
  log_session_id : string;
  log_module : string;
  log_action_type : string;
  log_payload : pydict;
  log_outcome : pyval
}.

(** ** Request models ([main.py]) *)

Record StartSessionRequest := mkStartSessionRequest {
  start_session_id : string
}.

Record ChoiceRequest := mkChoiceRequest {
  req_session_id : string;
  req_module : string;
  req_action_type : string;
  req_payload : pydict
}.

(** ** The document store

    The [database] module ([db], [create_document]) is imported by
    [main.py] but is not among the sources, so the store and its four
    operations are modelled from the spec. *)

(** Modelled from the spec: the documents of the [player] collection of
    the missing [database] module.  The handlers read every field with
    [doc.get(field, default)], so a field may be missing. *)
Record player_doc := mkDoc {
  doc_public_trust : option Z;
  doc_personal_clout : option Z;
  doc_professional_skill : option Z;
  doc_relationships : option (gmap string Z)
}.

(** Modelled from the spec: the missing [db] handle, a document store
    keyed by session identifier holding one player record per key and an
    append-only sequence of action-log records. *)
Record database := mkDatabase {
  player : gmap string player_doc;
  actionlog : list ActionLog
}.

(** [HTTPException(status_code, detail)] *)
Record HTTPException := mkHTTPException {
  status_code : Z;
  detail : string
}.

(** Handlers run against the store and either return or raise; a raise
    keeps the store as it is at that point. *)
Definition M (A : Type) : Type := database → (HTTPException + A) * database.

#[global] Instance M_ret : MRet M := λ A x db, (inr x, db).
#[global] Instance M_bind : MBind M := λ A B f m db,
  match m db with
  | (inl e, db') => (inl e, db')
  | (inr x, db') => f x db'
  end.
Definition raise {A : Type} (e : HTTPException) : M A := λ db, (inl e, db).

(** Modelled from the spec: the missing [db["player"].find_one], the
    store's get by key. *)
Definition find_one (sid : string) : M (option player_doc) :=
  λ db, (inr (player db !! sid), db).

(** Modelled from the spec: the missing [create_document] on the player
    collection, the store's create, filling the record from the model. *)
Definition create_document_player (p : Player) : M unit :=
  λ db,
    (inr tt,
     {| player := <[session_id p :=
                      {| doc_public_trust := Some (public_trust p);
                         doc_personal_clout := Some (personal_clout p);
                         doc_professional_skill := Some (professional_skill p);
                         doc_relationships := Some (relationships p) |}]> (player db);
        actionlog := actionlog db |}).

(** Modelled from the spec: the missing [db["player"].update_one] with
    [$set], the store's update by key: a full replace of the four
    mutable fields; a key with no record is left alone. *)
Definition update_one (sid : string) (t c s : Z) (r : gmap string Z) : M unit :=
  λ db,
    (inr tt,
     match player db !! sid with
     | Some _ =>
         {| player := <[sid := {| doc_public_trust := Some t;
                                  doc_personal_clout := Some c;
                                  doc_professional_skill := Some s;
                                  doc_relationships := Some r |}]> (player db);
            actionlog := actionlog db |}
     | None => db
     end).

(** Modelled from the spec: the missing [create_document] on the
    action-log collection, the store's append. *)
Definition create_document_actionlog (l : ActionLog) : M unit :=
  λ db, (inr tt, {| player := player db; actionlog := actionlog db ++ [l] |}).

(** ** Endpoints ([main.py]) *)

(** [POST /api/start].  A document found by [find_one] is a non-empty
    dictionary, hence true in [if existing:]. *)
Definition start_session (body : StartSessionRequest) : M Player :=
  existing ← find_one (start_session_id body);
  match existing with
  | Some existing =>
      mret {| session_id := start_session_id body;
              public_trust := default 50 (doc_public_trust existing);
              personal_clout := default 50 (doc_personal_clout existing);
              professional_skill := default 0 (doc_professional_skill existing);
              relationships := default ∅ (doc_relationships existing) |}
  | None =>
      let player := new_Player (start_session_id body) in
      create_document_player player ;;
      mret player
  end.

(** [relationships.get(k, 50)] *)
Definition rel_get (relationships : gmap string Z) (k : string) : Z :=
  default 50 (relationships !! k).

(** The response of [POST /api/choice]. *)
Record ChoiceResponse := mkChoiceResponse {
  resp_session_id : string;
  resp_public_trust : Z;
  resp_personal_clout : Z;
  resp_professional_skill : Z;
  resp_relationships : gmap string Z;
  resp_outcome : pyval
}.

(** The local variables a module branch leaves behind. *)
Record locals := mkLocals {
  l_public_trust : Z;
  l_personal_clout : Z;
  l_professional_skill : Z;
  l_relationships : gmap string Z;
  l_outcome : pyval
}.

(** [POST /api/choice] *)
Definition submit_choice (body : ChoiceRequest) : M ChoiceResponse :=
  player_doc ← find_one (req_session_id body);
  match player_doc with
  | None => raise (mkHTTPException 404 "Session not found. Start first.")
  | Some player_doc =>
    let public_trust := default 50 (doc_public_trust player_doc) in
    let personal_clout := default 50 (doc_personal_clout player_doc) in
    let professional_skill := default 0 (doc_professional_skill player_doc) in
    let relationships := default ∅ (doc_relationships player_doc) in
    let module := lower (req_module body) in
    r ← (if String.eqb module "prebunking" then
           let label := dict_get (req_payload body) "label" PNone in
           let truth := dict_get (req_payload body) "truth" PNone in
           if py_eq label truth then
             mret {| l_public_trust := Z.min 100 (public_trust + 5);
                     l_personal_clout :=
                       if negb (py_eq truth (PStr "verified"))
                       then Z.max 0 (personal_clout - 1)
                       else Z.min 100 (personal_clout + 2);
                     l_professional_skill := professional_skill;
                     l_relationships := relationships;
                     l_outcome :=
                       PDict [("message", PStr "Good call.");
                              ("delta", PDict [("public_trust", PInt 5);
                                               ("personal_clout",
                                                if py_eq truth (PStr "verified")
                                                then PInt 2 else PInt (-1))])] |}
           else
             mret {| l_public_trust := Z.max 0 (public_trust - 8);
                     l_personal_clout :=
                       if negb (py_eq label (PStr "verified"))
                       then Z.min 100 (personal_clout + 4)
                       else Z.max 0 (personal_clout - 2);
                     l_professional_skill := professional_skill;
                     l_relationships := relationships;
                     l_outcome :=
                       PDict [("message", PStr "That choice undermined trust.");
                              ("delta", PDict [("public_trust", PInt (-8));
                                               ("personal_clout",
                                                if negb (py_eq label (PStr "verified"))
                                                then PInt 4 else PInt (-2))])] |}
         else if String.eqb module "ethical" then
           let choice := dict_get (req_payload body) "choice" PNone in
           if py_eq choice (PStr "intervene") then
             mret {| l_public_trust := Z.min 100 (public_trust + 6);
                     l_personal_clout := personal_clout;
                     l_professional_skill := professional_skill;
                     l_relationships :=
                       fold_left (λ rel k, <[k := Z.min 100 (rel_get rel k + 8)]> rel)
                                 ["victim"; "bystander"] relationships;
                     l_outcome :=
                       PDict [("message", PStr "You stood up. Respect earned.");
                              ("delta", PDict [("public_trust", PInt 6);
                                               ("relationships",
                                                PDict [("victim", PInt 8);
                                                       ("bystander", PInt 8)])])] |}
           else if py_eq choice (PStr "report") then
             mret {| l_public_trust := Z.min 100 (public_trust + 4);
                     l_personal_clout := personal_clout;
                     l_professional_skill := professional_skill;
                     l_relationships :=
                       <["victim" := Z.min 100 (rel_get relationships "victim" + 6)]> relationships;
                     l_outcome :=
                       PDict [("message", PStr "You reported the issue.");
                              ("delta", PDict [("public_trust", PInt 4);
                                               ("relationships",
                                                PDict [("victim", PInt 6)])])] |}
           else if py_eq choice (PStr "stay_silent") then
             mret {| l_public_trust := Z.max 0 (public_trust - 5);
                     l_personal_clout := personal_clout;
                     l_professional_skill := professional_skill;
                     l_relationships :=
                       <["victim" := Z.max 0 (rel_get relationships "victim" - 7)]> relationships;
                     l_outcome :=
                       PDict [("message", PStr "Silence has a cost.");
                              ("delta", PDict [("public_trust", PInt (-5));
                                               ("relationships",
                                                PDict [("victim", PInt (-7))])])] |}
           else if py_eq choice (PStr "participate") then
             mret {| l_public_trust := Z.max 0 (public_trust - 12);
                     l_personal_clout := personal_clout;
                     l_professional_skill := professional_skill;
                     l_relationships :=
                       fold_left (λ rel k, <[k := Z.max 0 (rel_get rel k - 10)]> rel)
                                 ["victim"; "bystander"] relationships;
                     l_outcome :=
                       PDict [("message", PStr "Harmful choice hurt your standing.");
                              ("delta", PDict [("public_trust", PInt (-12));
                                               ("relationships",
                                                PDict [("victim", PInt (-10));
                                                       ("bystander", PInt (-10))])])] |}
           else
             mret {| l_public_trust := public_trust;
                     l_personal_clout := personal_clout;
                     l_professional_skill := professional_skill;
                     l_relationships := relationships;
                     l_outcome := PDict [("message", PStr "No effect")] |}
         else if String.eqb module "professional" then
           let task := dict_get (req_payload body) "task" PNone in
           let success := dict_get (req_payload body) "success" (PBool false) in
           if truthy success then
             mret {| l_public_trust := Z.min 100 (public_trust + 2);
                     l_personal_clout := personal_clout;
                     l_professional_skill := Z.min 100 (professional_skill + 7);
                     l_relationships := relationships;
                     l_outcome :=
                       PDict [("message", PStr "Professional skill leveled up!");
                              ("delta", PDict [("professional_skill", PInt 7);
                                               ("public_trust", PInt 2)])] |}
           else
             mret {| l_public_trust := public_trust;
                     l_personal_clout := personal_clout;
                     l_professional_skill := Z.max 0 (professional_skill - 2);
                     l_relationships := relationships;
                     l_outcome :=
                       PDict [("message", PStr "Incomplete attempt. Try again.");
                              ("delta", PDict [("professional_skill", PInt (-2))])] |}
         else raise (mkHTTPException 400 "Unknown module"));
    update_one (req_session_id body)
               (l_public_trust r) (l_personal_clout r)
               (l_professional_skill r) (l_relationships r) ;;
    create_document_actionlog
      {| log_session_id := req_session_id body;
         log_module := module;
         log_action_type := req_action_type body;
         log_payload := req_payload body;
         log_outcome := l_outcome r |} ;;
    mret {| resp_session_id := req_session_id body;
            resp_public_trust := l_public_trust r;
            resp_personal_clout := l_personal_clout r;
            resp_professional_skill := l_professional_skill r;
            resp_relationships := l_relationships r;
            resp_outcome := l_outcome r |}
  end.

(** ** Reading the store *)

Definition in_range (z : Z) : Prop := 0 ≤ z ≤ 100.

(** [clamp] to the range of the schema: [ge=0, le=100]. *)
Definition clamp (z : Z) : Z := Z.max 0 (Z.min 100 z).

(** The stats of a stored document, read with the defaults both
    endpoints use. *)
Definition read_player (sid : string) (doc : player_doc) : Player :=
  {| session_id := sid;
     public_trust := default 50 (doc_public_trust doc);
     personal_clout := default 50 (doc_personal_clout doc);
     professional_skill := default 0 (doc_professional_skill doc);
     relationships := default ∅ (doc_relationships doc) |}.

Definition stored (db : database) (sid : string) : option Player :=
  read_player sid <$> player db !! sid.

Definition player_in_range (p : Player) : Prop :=
  in_range (public_trust p) ∧ in_range (personal_clout p) ∧
  in_range (professional_skill p) ∧
  map_Forall (λ _ v, in_range v) (relationships p).

(** The player part of a choice response. *)
Definition resp_player (r : ChoiceResponse) : Player :=
  {| session_id := resp_session_id r;
     public_trust := resp_public_trust r;
     personal_clout := resp_personal_clout r;
     professional_skill := resp_professional_skill r;
     relationships := resp_relationships r |}.

Definition known_module (m : string) : bool :=
  String.eqb m "prebunking" || String.eqb m "ethical" || String.eqb m "professional".

Definition NotFound : HTTPException :=
  mkHTTPException 404 "Session not found. Start first.".
Definition BadRequest : HTTPException :=
  mkHTTPException 400 "Unknown module".

(** ** Vocabulary of the statements *)

(** The store after a successful choice: the four fields replaced and
    one log entry appended. *)
Definition persist (body : ChoiceRequest) (resp : ChoiceResponse) (db : database) : database :=
  {| player := <[req_session_id body :=
                   {| doc_public_trust := Some (resp_public_trust resp);
                      doc_personal_clout := Some (resp_personal_clout resp);
                      doc_professional_skill := Some (resp_professional_skill resp);
                      doc_relationships := Some (resp_relationships resp) |}]> (player db);
     actionlog := actionlog db ++
                  [{| log_session_id := req_session_id body;
                      log_module := lower (req_module body);
                      log_action_type := req_action_type body;
                      log_payload := req_payload body;
                      log_outcome := resp_outcome resp |}] |}.

(** A store with one freshly started session. *)
Definition doc_default : player_doc :=
  {| doc_public_trust := Some 50;
     doc_personal_clout := Some 50;
     doc_professional_skill := Some 0;
     doc_relationships := Some ∅ |}.

Definition db_s1 : database :=
  {| player := {[ "s1" := doc_default ]}; actionlog := [] |}.

(** The same store once the session has a score of 90 for "victim",
    trust 50 and skill 10. *)
Definition doc_victim90 : player_doc :=
  {| doc_public_trust := Some 50;
     doc_personal_clout := Some 50;
     doc_professional_skill := Some 10;
     doc_relationships := Some {[ "victim" := 90 ]} |}.

Definition db_victim90 : database :=
  {| player := {[ "s1" := doc_victim90 ]}; actionlog := [] |}.

Definition choice_s1 (module : string) (payload : pydict) : ChoiceRequest :=
  {| req_session_id := "s1";
     req_module := module;
     req_action_type := "choose";
     req_payload := payload |}.

Definition outcome_message (o : pyval) : option pyval :=
  match o with
  | PDict d => assoc_lookup "message" d
  | _ => None
  end.

(** [outcome["delta"][field]], when present. *)
Definition outcome_delta (o : pyval) (field : string) : option pyval :=
  match o with
  | PDict d =>
      match assoc_lookup "delta" d with
      | Some (PDict dd) => assoc_lookup field dd
      | _ => None
      end
  | _ => None
  end.

(** [outcome["delta"]["relationships"][k]], when present. *)
Definition outcome_rel_delta (o : pyval) (k : string) : option pyval :=
  match outcome_delta o "relationships" with
  | Some (PDict r) => assoc_lookup k r
  | _ => None
  end.

(** The rules of the ethical module as the specification lists them: the
    trust delta and the relationship deltas of each recognized choice. *)
Definition ethical_deltas (choice : pyval) : option (Z * list (string * Z)) :=
  match choice with
  | PStr s =>
      if String.eqb s "intervene" then Some (6, [("victim", 8); ("bystander", 8)])
      else if String.eqb s "report" then Some (4, [("victim", 6)])
      else if String.eqb s "stay_silent" then Some (-5, [("victim", -7)])
      else if String.eqb s "participate" then
        Some (-12, [("victim", -10); ("bystander", -10)])
      else None
  | _ => None
  end.

(** The affinity the specification reads for a character: the stored
    score, or 50 when there is none.  It is written out here on the
    stored map, apart from the handler's own [rel_get]. *)
Definition affinity (rel : gmap string Z) (k : string) : Z :=
  match rel !! k with
  | Some v => v
  | None => 50
  end.

(** Each listed entry has moved by its delta from its affinity and is
    clamped; every entry that is not listed is as it was. *)
Definition rel_moved (ds : list (string * Z)) (before after : gmap string Z) : Prop :=
  (∀ k d, (k, d) ∈ ds → after !! k = Some (clamp (affinity before k + d))) ∧
  (∀ k, k ∉ ds.*1 → after !! k = before !! k).

(** A payload is a dictionary: no key occurs twice.  Its field [k] is
    [v] when the item is in it, and it has no field [k] when the key is
    not; both are read off the items, apart from [dict.get]. *)
Definition payload_ok (payload : pydict) : Prop := NoDup payload.*1.
Definition has_field (payload : pydict) (k : string) (v : pyval) : Prop :=
  (k, v) ∈ payload.
Definition no_field (payload : pydict) (k : string) : Prop :=
  k ∉ payload.*1.


(** [n] submissions of the same request, one after the other. *)
Fixpoint repeat_choice (n : nat) (body : ChoiceRequest) (db : database) : database :=
  match n with
  | O => db
  | S n' => repeat_choice n' body (submit_choice body db).2
  end.

(** A request to either endpoint, and the store it leaves behind. *)
Inductive request : Type :=
| Start (body : StartSessionRequest)
| Choice (body : ChoiceRequest).

Definition handle (r : request) (db : database) : database :=
  match r with
  | Start body => (start_session body db).2
  | Choice body => (submit_choice body db).2
  end.

Definition run (rs : list request) (db : database) : database :=
  fold_left (λ db r, handle r db) rs db.

Definition db_in_range (db : database) : Prop :=
  map_Forall (λ sid doc, player_in_range (read_player sid doc)) (player db).

(** A reported integer delta accounts for the move of a stat from
    [before] to [after]; an unreported stat has not moved. *)
Definition mirrors (reported : option pyval) (before after : Z) : Prop :=
  match reported with
  | Some (PInt d) => after = clamp (before + d)
  | Some _ => False
  | None => after = before
  end.

(** The same for a relationship entry, [before] being its affinity: the
    stored score, or 50 when there was none. *)
Definition rel_mirrors (reported : option pyval) (k : string)
    (before after : gmap string Z) : Prop :=
  match reported with
  | Some (PInt d) => after !! k = Some (clamp (affinity before k + d))
  | Some _ => False
  | None => after !! k = before !! k
  end.

(** ** The diagnostic endpoint ([main.py]) *)

(** [get_player_collection_name]: the lowercased name of the model. *)
Definition get_player_collection_name : string := lower "Player".

(** What [test_database] uses of the store handle [db] when it is not
    [None]: its [name], and [list_collection_names()], which either
    raises an exception [e] (kept as [str(e)]) or returns the names. *)
Record db_handle := mkHandle {
  handle_name : string;
  handle_list_collection_names : string + list string
}.

(** [response[k] = v]: an existing key keeps its place. *)
Fixpoint dict_set (d : pydict) (k : string) (v : pyval) : pydict :=
  match d with
  | [] => [(k, v)]
  | (k', v') :: d' =>
      if String.eqb k k' then (k', v) :: d' else (k', v') :: dict_set d' k v
  end.

(** A byte inside a UTF-8 character: [10xxxxxx]. *)
Definition continuation (c : ascii) : bool :=
  let n := nat_of_ascii c in Nat.leb 128 n && Nat.ltb n 192.

(** [s[:n]], the first [n] characters of a string kept as UTF-8 bytes:
    the bytes of a character follow its first byte. *)
Fixpoint take_chars (n : nat) (s : string) : string :=
  match s with
  | EmptyString => EmptyString
  | String c s' =>
      if continuation c then String c (take_chars n s')
      else match n with
           | O => EmptyString
           | S n' => String c (take_chars n' s')
           end
  end.


(** The truth value of [os.getenv(name)]: unset and empty are false. *)
Definition getenv_set (getenv : string → option string) (name : string) : bool :=
  truthy (from_option PStr PNone (getenv name)).

(** [GET /test].  The assignments made before an exception is raised
    inside the [try] block stay in the response; [str(e)[:80]] keeps 80
    characters, not bytes. *)
Definition test_database (db : option db_handle) (getenv : string → option string) : pydict :=
  let response :=
    [("backend", PStr "✅ Running");
     ("database", PStr "❌ Not Available");
     ("database_url", PNone);
     ("database_name", PNone);
     ("connection_status", PStr "Not Connected");
     ("collections", PList [])] in
  let response :=
    match db with
    | Some db =>
        let response := dict_set response "database" (PStr "✅ Available") in
        let response := dict_set response "database_url" (PStr "✅ Configured") in
        let response := dict_set response "database_name" (PStr (handle_name db)) in
        let response := dict_set response "connection_status" (PStr "Connected") in
        match handle_list_collection_names db with
        | inr collections =>
            let response :=
              dict_set response "collections" (PList (PStr <$> take 10 collections)) in
            dict_set response "database" (PStr "✅ Connected & Working")
        | inl e =>
            dict_set response "database"
                     (PStr (String.append "❌ Error: " (take_chars 80 e)))
        end
    | None => response
    end in
  let response :=
    dict_set response "database_url"
             (PStr (if getenv_set getenv "DATABASE_URL" then "✅ Set" else "❌ Not Set")) in
  let response :=
    dict_set response "database_name"
             (PStr (if getenv_set getenv "DATABASE_NAME" then "✅ Set" else "❌ Not Set")) in
  response.

(** ** Requests derived from others *)

Definition start_of (sid : string) : StartSessionRequest :=
  {| start_session_id := sid |}.

(** The same request under another module tag. *)
Definition with_module (m : string) (body : ChoiceRequest) : ChoiceRequest :=
  {| req_session_id := req_session_id body;
     req_module := m;
     req_action_type := req_action_type body;
     req_payload := req_payload body |}.

(** The log entry a returning choice writes. *)
Definition log_entry (body : ChoiceRequest) (resp : ChoiceResponse) : ActionLog :=
  {| log_session_id := req_session_id body;
     log_module := lower (req_module body);
     log_action_type := req_action_type body;
     log_payload := req_payload body;
     log_outcome := resp_outcome resp |}.

(** What a request appends to the action log. *)
Definition logged (r : request) (db : database) : list ActionLog :=
  match r with
  | Start _ => []
  | Choice body =>
      match (submit_choice body db).1 with
      | inr resp => [log_entry body resp]
      | inl _ => []
      end
  end.

(** The session a request starts, if any. *)
Definition started (r : request) : gset string :=
  match r with
  | Start body => {[ start_session_id body ]}
  | Choice _ => ∅
  end.

(** A log entry is well formed in a store when its module is one of the
    three tags and its session has a player record. *)
Definition log_entry_ok (db : database) (l : ActionLog) : Prop :=
  known_module (log_module l) = true ∧ is_Some (player db !! log_session_id l).

(** [after] lies between [before] and the range [0,100]: within the
    range when [before] is, and no further out when it is not. *)
Definition no_further_out (before after : Z) : Prop :=
  Z.min 0 before ≤ after ≤ Z.max 100 before.

(** A stored document that has all four stat fields, so that no default
    is used when it is read. *)
Definition doc_complete (doc : player_doc) : Prop :=
  is_Some (doc_public_trust doc) ∧ is_Some (doc_personal_clout doc) ∧
  is_Some (doc_professional_skill doc) ∧ is_Some (doc_relationships doc).

(** ** Proof support *)

#[local] Arguments String.eqb !_ !_ /.

Ltac rel_lookups :=
  unfold rel_get;
  repeat first [ rewrite lookup_insert_eq
               | rewrite lookup_insert_ne by congruence ];
  cbn [from_option]; unfold id in *.

Ltac run_handler :=
  unfold submit_choice, start_session, find_one, update_one,
    create_document_player, create_document_actionlog, raise,
    mbind, M_bind, mret, M_ret.

(** ** Error paths *)

(** C7: a choice for a session with no player record raises the 404
    "not found" exception and leaves the store exactly as it was: no
    player record is created or changed and no log entry is appended. *)
Theorem submit_choice_not_found (body : ChoiceRequest) (db : database) :
  player db !! req_session_id body = None →
  submit_choice body db = (inl NotFound, db) ∧ status_code NotFound = 404.
Proof.
  intros Hnone. split; [|reflexivity].
  run_handler. rewrite Hnone. reflexivity.
Qed.

Lemma submit_choice_not_found_witness :
  let db := {| player := ∅; actionlog := [] |} in
  let body := {| req_session_id := "nobody";
                 req_module := "ethical";
                 req_action_type := "choose";
                 req_payload := [("choice", PStr "report")] |} in
  player db !! "nobody" = None ∧
  submit_choice body db = (inl NotFound, db).
Proof.
  intros db body. split; [reflexivity|].
  exact (proj1 (submit_choice_not_found body db eq_refl)).
Defined.

(** Every return of [submit_choice] goes through the two writes. *)
Lemma submit_choice_returns (body : ChoiceRequest) (db db' : database)
    (resp : ChoiceResponse) :
  submit_choice body db = (inr resp, db') →
  is_Some (player db !! req_session_id body) ∧
  resp_session_id resp = req_session_id body ∧
  db' = persist body resp db.
Proof.
  run_handler. unfold persist.
  destruct (player db !! req_session_id body) as [doc|] eqn:Hdoc; [|discriminate].
  intros H. split; [eauto|].
  repeat match type of H with
         | context [if ?b then _ else _] => destruct b
         end;
    rewrite ?Hdoc in H; cbn [l_public_trust l_personal_clout l_professional_skill
                               l_relationships l_outcome] in H;
    try discriminate; inversion H; subst; clear H; split; reflexivity.
Qed.

(** A raise happens before any write. *)
Lemma submit_choice_raises (body : ChoiceRequest) (db db' : database)
    (e : HTTPException) :
  submit_choice body db = (inl e, db') →
  db' = db ∧
  (e = NotFound ∧ player db !! req_session_id body = None ∨
   e = BadRequest ∧ is_Some (player db !! req_session_id body) ∧
   known_module (lower (req_module body)) = false).
Proof.
  run_handler. unfold known_module.
  destruct (player db !! req_session_id body) as [doc|] eqn:Hdoc.
  - intros H.
    repeat match type of H with
           | context [if ?b then _ else _] => destruct b
           end;
      rewrite ?Hdoc in H; try discriminate;
      inversion H; subst; clear H; split; [reflexivity|right]; eauto.
  - intros H. inversion H; subst. split; [reflexivity|left]. split; reflexivity.
Qed.

Lemma rel_get_in_range (rel : gmap string Z) (k : string) :
  map_Forall (λ _ v, in_range v) rel → in_range (rel_get rel k).
Proof.
  intros Hall. unfold rel_get.
  destruct (rel !! k) as [v|] eqn:Hk; simpl.
  - exact (Hall k v Hk).
  - unfold in_range. lia.
Qed.

Lemma in_range_incr (z d : Z) : in_range z → 0 ≤ d → in_range (Z.min 100 (z + d)).
Proof. unfold in_range. lia. Qed.

Lemma in_range_decr (z d : Z) : in_range z → 0 ≤ d → in_range (Z.max 0 (z - d)).
Proof. unfold in_range. lia. Qed.

Lemma rel_incr_in_range (rel : gmap string Z) (k : string) (d : Z) :
  0 ≤ d → map_Forall (λ _ v, in_range v) rel →
  map_Forall (λ _ v, in_range v) (<[k := Z.min 100 (rel_get rel k + d)]> rel).
Proof.
  intros Hd Hall. apply map_Forall_insert_2; [|exact Hall].
  apply in_range_incr; [apply rel_get_in_range; exact Hall|exact Hd].
Qed.

Lemma rel_decr_in_range (rel : gmap string Z) (k : string) (d : Z) :
  0 ≤ d → map_Forall (λ _ v, in_range v) rel →
  map_Forall (λ _ v, in_range v) (<[k := Z.max 0 (rel_get rel k - d)]> rel).
Proof.
  intros Hd Hall. apply map_Forall_insert_2; [|exact Hall].
  apply in_range_decr; [apply rel_get_in_range; exact Hall|exact Hd].
Qed.

Lemma submit_choice_resp_in_range (body : ChoiceRequest) (db db' : database)
    (doc : player_doc) (resp : ChoiceResponse) :
  player db !! req_session_id body = Some doc →
  player_in_range (read_player (req_session_id body) doc) →
  submit_choice body db = (inr resp, db') →
  player_in_range (resp_player resp).
Proof.
  intros Hdoc (Ht & Hc & Hs & Hr). cbn in Ht, Hc, Hs, Hr.
  run_handler. rewrite Hdoc. intros H.
  repeat match type of H with
         | context [if ?b then _ else _] => destruct b
         end;
    rewrite ?Hdoc in H; try discriminate;
    inversion H; subst; clear H;
    (split; [|split; [|split]]); cbn;
    first [ assumption
          | apply in_range_incr; [assumption|lia]
          | apply in_range_decr; [assumption|lia]
          | repeat first [apply rel_incr_in_range; [lia|]
                         |apply rel_decr_in_range; [lia|]]; assumption ].
Qed.

Lemma stored_persist (body : ChoiceRequest) (resp : ChoiceResponse) (db : database) :
  resp_session_id resp = req_session_id body →
  stored (persist body resp db) (req_session_id body) = Some (resp_player resp).
Proof.
  intros Hsid. unfold stored, persist; cbn. rewrite lookup_insert_eq. cbn.
  unfold read_player, resp_player; cbn. rewrite Hsid. reflexivity.
Qed.

(** ** Range preservation *)

(** C1: starting from a player whose four stats, read with their
    defaults, lie in [0,100] (every relationship entry included), the
    stats stored for the session after a choice lie in [0,100] again,
    whether the call returns or raises; when it returns, they are the
    returned stats; and no other player record is written. *)
Theorem submit_choice_in_range (body : ChoiceRequest) (db : database)
    (doc : player_doc) :
  player db !! req_session_id body = Some doc →
  player_in_range (read_player (req_session_id body) doc) →
  ∃ p,
    stored (submit_choice body db).2 (req_session_id body) = Some p ∧
    player_in_range p ∧
    (∀ resp, (submit_choice body db).1 = inr resp → resp_player resp = p) ∧
    ∀ sid, sid ≠ req_session_id body →
           player (submit_choice body db).2 !! sid = player db !! sid.
Proof.
  intros Hdoc Hrange.
  destruct (submit_choice body db) as [[e|resp] db'] eqn:Hrun; cbn [fst snd].
  - destruct (submit_choice_raises _ _ _ _ Hrun) as (-> & _).
    exists (read_player (req_session_id body) doc).
    split; [unfold stored; rewrite Hdoc; reflexivity|].
    split; [exact Hrange|]. split; [discriminate|reflexivity].
  - exists (resp_player resp).
    pose proof (submit_choice_resp_in_range _ _ _ _ _ Hdoc Hrange Hrun) as Hresp.
    destruct (submit_choice_returns _ _ _ _ Hrun) as (_ & Hsid & ->).
    split; [exact (stored_persist body resp db Hsid)|].
    split; [exact Hresp|]. split; [intros resp' [= <-]; reflexivity|].
    intros sid Hne. unfold persist; cbn.
    rewrite lookup_insert_ne; [reflexivity|congruence].
Qed.

Lemma doc_default_in_range (sid : string) :
  player_in_range (read_player sid doc_default).
Proof.
  unfold player_in_range, in_range; cbn.
  split; [lia|split; [lia|split; [lia|apply map_Forall_empty]]].
Qed.

Lemma submit_choice_in_range_witness :
  let body := choice_s1 "ethical" [("choice", PStr "intervene")] in
  let after := {| session_id := "s1";
                  public_trust := 56;
                  personal_clout := 50;
                  professional_skill := 0;
                  relationships := <["bystander" := 58]> {[ "victim" := 58 ]} |} in
  stored (submit_choice body db_s1).2 "s1" = Some after ∧
  player_in_range after.
Proof.
  intros body after.
  assert (Hafter : stored (submit_choice body db_s1).2 "s1" = Some after)
    by reflexivity.
  split; [exact Hafter|].
  destruct (submit_choice_in_range body db_s1 doc_default
              eq_refl (doc_default_in_range "s1")) as (p & Hp & Hrange & _).
  change (req_session_id body) with "s1" in Hp.
  rewrite Hafter in Hp. injection Hp as <-. exact Hrange.
Defined.

(** The stores the two endpoints can produce from the empty store all
    hold in-range records, which is the precondition of the scoring
    theorems below. *)
Lemma handle_in_range (r : request) (db : database) :
  db_in_range db → db_in_range (handle r db).
Proof.
  intros Hdb. destruct r as [body|body]; cbn [handle].
  - run_handler.
    destruct (player db !! start_session_id body) as [doc|]; [exact Hdb|].
    cbn. apply map_Forall_insert_2; [|exact Hdb].
    apply doc_default_in_range.
  - destruct (submit_choice body db) as [[e|resp] db'] eqn:Hrun; cbn [snd].
    + destruct (submit_choice_raises _ _ _ _ Hrun) as (-> & _). exact Hdb.
    + destruct (submit_choice_returns _ _ _ _ Hrun) as ([doc Hdoc] & _ & Hdb').
      pose proof (submit_choice_resp_in_range _ _ _ _ _ Hdoc (Hdb _ _ Hdoc) Hrun)
        as Hresp.
      subst db'. unfold db_in_range, persist; cbn.
      apply map_Forall_insert_2; [exact Hresp|exact Hdb].
Qed.

Lemma run_in_range (rs : list request) :
  db_in_range (run rs {| player := ∅; actionlog := [] |}).
Proof.
  unfold run.
  assert (Hgen : ∀ db, db_in_range db →
                       db_in_range (fold_left (λ db r, handle r db) rs db)).
  { induction rs as [|r rs IH]; intros db Hdb; cbn; [exact Hdb|].
    apply IH, handle_in_range, Hdb. }
  apply Hgen. unfold db_in_range; cbn. apply map_Forall_empty.
Qed.

(** ** Clamping on one side *)

Lemma clamp_incr (z d : Z) : in_range z → 0 ≤ d → Z.min 100 (z + d) = clamp (z + d).
Proof. unfold in_range, clamp. lia. Qed.

Lemma clamp_decr (z d : Z) : in_range z → 0 ≤ d → Z.max 0 (z - d) = clamp (z + - d).
Proof. unfold in_range, clamp. lia. Qed.

Lemma returns_persist (body : ChoiceRequest) (db db' : database)
    (resp : ChoiceResponse) :
  submit_choice body db = (inr resp, db') →
  submit_choice body db = (inr resp, persist body resp db).
Proof.
  intros Hrun. destruct (submit_choice_returns _ _ _ _ Hrun) as (_ & _ & <-).
  exact Hrun.
Qed.

(** ** Prebunking *)

(** C2: on a prebunking submission whose [label] and [truth] are strings
    (in particular among verified, misleading, hoax), from trust and
    clout within [0,100]: if they are equal, trust becomes
    clamp(trust + 5), clout clamp(clout + 2) when truth is "verified" and
    clamp(clout - 1) otherwise, with message "Good call."; if they
    differ, trust becomes clamp(trust - 8), clout clamp(clout + 4) when
    label is not "verified" and clamp(clout - 2) otherwise, with message
    "That choice undermined trust.".  Skill and relationships are kept.
    From 50 and 50 with both "verified" the result is 55 and 52. *)
Theorem prebunking_rule (body : ChoiceRequest) (db : database)
    (doc : player_doc) (label truth : string) :
  player db !! req_session_id body = Some doc →
  in_range (default 50 (doc_public_trust doc)) →
  in_range (default 50 (doc_personal_clout doc)) →
  lower (req_module body) = "prebunking" →
  assoc_lookup "label" (req_payload body) = Some (PStr label) →
  assoc_lookup "truth" (req_payload body) = Some (PStr truth) →
  ∃ resp,
    submit_choice body db = (inr resp, persist body resp db) ∧
    resp_professional_skill resp = default 0 (doc_professional_skill doc) ∧
    resp_relationships resp = default ∅ (doc_relationships doc) ∧
    (if String.eqb label truth then
       resp_public_trust resp = clamp (default 50 (doc_public_trust doc) + 5) ∧
       resp_personal_clout resp =
         clamp (default 50 (doc_personal_clout doc)
                + (if String.eqb truth "verified" then 2 else -1)) ∧
       outcome_message (resp_outcome resp) = Some (PStr "Good call.") ∧
       outcome_delta (resp_outcome resp) "public_trust" = Some (PInt 5) ∧
       outcome_delta (resp_outcome resp) "personal_clout" =
         Some (PInt (if String.eqb truth "verified" then 2 else -1))
     else
       resp_public_trust resp = clamp (default 50 (doc_public_trust doc) - 8) ∧
       resp_personal_clout resp =
         clamp (default 50 (doc_personal_clout doc)
                + (if String.eqb label "verified" then -2 else 4)) ∧
       outcome_message (resp_outcome resp) = Some (PStr "That choice undermined trust.") ∧
       outcome_delta (resp_outcome resp) "public_trust" = Some (PInt (-8)) ∧
       outcome_delta (resp_outcome resp) "personal_clout" =
         Some (PInt (if String.eqb label "verified" then -2 else 4))) ∧
    (default 50 (doc_public_trust doc) = 50 →
     default 50 (doc_personal_clout doc) = 50 →
     label = "verified" → truth = "verified" →
     resp_public_trust resp = 55 ∧ resp_personal_clout resp = 52).
Proof.
  intros Hdoc Ht Hc Hm Hlabel Htruth.
  destruct (String.eqb label truth) eqn:Hlt;
    destruct (String.eqb truth "verified") eqn:Hv;
    destruct (String.eqb label "verified") eqn:Hl;
    (eexists; split;
     [ eapply returns_persist; run_handler; unfold dict_get;
       rewrite Hdoc, Hm, Hlabel, Htruth;
       cbn [py_eq String.eqb Ascii.eqb Bool.eqb];
       rewrite ?Hlt, ?Hv, ?Hl; cbn [negb]; rewrite Hdoc; reflexivity
     | cbn;
       rewrite ?(clamp_incr _ 5), ?(clamp_incr _ 2), ?(clamp_incr _ 4),
         ?(clamp_decr _ 1), ?(clamp_decr _ 8), ?(clamp_decr _ 2)
         by (assumption || lia);
       repeat split; try reflexivity ]).
  all: subst; rewrite ?String.eqb_refl in *; try discriminate.
  all: match goal with
       | Ht50 : default 50 (doc_public_trust _) = 50,
         Hc50 : default 50 (doc_personal_clout _) = 50 |- _ =>
           rewrite ?Ht50, ?Hc50; reflexivity
       end.
Qed.

Lemma prebunking_rule_witness :
  let body := choice_s1 "prebunking"
                [("label", PStr "verified"); ("truth", PStr "verified")] in
  ∃ resp,
    submit_choice body db_s1 = (inr resp, persist body resp db_s1) ∧
    resp_public_trust resp = 55 ∧ resp_personal_clout resp = 52.
Proof.
  intros body.
  assert (H50 : in_range 50) by (unfold in_range; lia).
  destruct (prebunking_rule body db_s1 doc_default "verified" "verified"
              eq_refl H50 H50 eq_refl eq_refl eq_refl)
    as (resp & Hrun & _ & _ & _ & Hfrom50).
  exists resp. split; [exact Hrun|].
  exact (Hfrom50 eq_refl eq_refl eq_refl eq_refl).
Defined.

(** The incorrect call of the specification's examples: "hoax" against
    "misleading" takes trust from 50 to 42 and clout from 50 to 54. *)
Example prebunking_hoax_on_misleading :
  ∃ resp db',
    submit_choice
      (choice_s1 "prebunking" [("label", PStr "hoax"); ("truth", PStr "misleading")])
      db_s1 = (inr resp, db') ∧
    resp_public_trust resp = 42 ∧ resp_personal_clout resp = 54.
Proof.
  eexists _, _. split; [vm_compute; reflexivity|]. split; reflexivity.
Qed.

(** ** Ethical *)

Lemma rel_get_affinity (rel : gmap string Z) (k : string) :
  rel_get rel k = affinity rel k.
Proof. unfold rel_get, affinity. destruct (rel !! k); reflexivity. Qed.

Lemma assoc_lookup_field {V : Type} (d : list (string * V)) (k : string) (v : V) :
  NoDup d.*1 → (k, v) ∈ d → assoc_lookup k d = Some v.
Proof.
  induction d as [|[k' v'] d IH]; intros Hnodup Hin; [inversion Hin|].
  cbn in Hnodup. apply NoDup_cons in Hnodup as (Hfresh & Hnodup).
  cbn [assoc_lookup]. apply elem_of_cons in Hin as [[= -> ->]|Hin].
  - rewrite String.eqb_refl. reflexivity.
  - destruct (String.eqb_spec k k') as [->|Hne]; [|exact (IH Hnodup Hin)].
    exfalso. apply Hfresh. apply list_elem_of_fmap. exists (k', v). split; [reflexivity|exact Hin].
Qed.

Lemma assoc_lookup_no_field {V : Type} (d : list (string * V)) (k : string) :
  k ∉ d.*1 → assoc_lookup k d = None.
Proof.
  induction d as [|[k' v'] d IH]; intros Hnot; [reflexivity|].
  cbn in Hnot. apply not_elem_of_cons in Hnot as (Hne & Hnot).
  cbn [assoc_lookup]. destruct (String.eqb_spec k k') as [->|_]; [congruence|].
  exact (IH Hnot).
Qed.

Lemma dict_get_field (payload : pydict) (k : string) (v dflt : pyval) :
  payload_ok payload → has_field payload k v → dict_get payload k dflt = v.
Proof.
  intros Hok Hin. unfold dict_get.
  rewrite (assoc_lookup_field payload k v Hok Hin). reflexivity.
Qed.

Lemma dict_get_no_field (payload : pydict) (k : string) (dflt : pyval) :
  no_field payload k → dict_get payload k dflt = dflt.
Proof.
  intros Hnot. unfold dict_get.
  rewrite (assoc_lookup_no_field payload k Hnot). reflexivity.
Qed.

(** The relationship part of each recognized choice, on the code's own
    maps. *)
Ltac rel_moved_cases :=
  split;
  [ intros k d Hin;
    repeat (apply elem_of_cons in Hin as [Hin|Hin];
            [injection Hin as -> ->|]);
    [..|inversion Hin];
    match goal with
    | |- context [affinity ?r ?k] => rewrite <- (rel_get_affinity r k)
    end;
    rel_lookups; f_equal; unfold clamp; lia
  | intros k Hnot; cbn in Hnot;
    repeat (apply not_elem_of_cons in Hnot as [? Hnot]);
    rewrite ?lookup_insert_ne by congruence; reflexivity ].

(** C3: on an ethical submission whose [choice] field is [choice] (or
    is missing, read as [None]), from trust and relationship entries
    within [0,100]: "intervene" adds 6 to trust and 8 to "victim" and
    "bystander"; "report" adds 4 to trust and 6 to "victim";
    "stay_silent" takes 5 from trust and 7 from "victim"; "participate"
    takes 12 from trust and 10 from each of "victim" and "bystander".
    Each entry moves from its stored score, or from 50 when it has none,
    every result is clamped, and the other entries are kept.  Any other
    choice value keeps the stats as they were and the outcome is the
    message "No effect".  From the defaults, "participate" gives trust 38
    and 40 for both relationships. *)
Theorem ethical_rule (body : ChoiceRequest) (db : database) (doc : player_doc)
    (choice : pyval) :
  player db !! req_session_id body = Some doc →
  in_range (default 50 (doc_public_trust doc)) →
  map_Forall (λ _ v, in_range v) (default ∅ (doc_relationships doc)) →
  lower (req_module body) = "ethical" →
  payload_ok (req_payload body) →
  has_field (req_payload body) "choice" choice ∨
    (no_field (req_payload body) "choice" ∧ choice = PNone) →
  ∃ resp,
    submit_choice body db = (inr resp, persist body resp db) ∧
    resp_personal_clout resp = default 50 (doc_personal_clout doc) ∧
    resp_professional_skill resp = default 0 (doc_professional_skill doc) ∧
    match ethical_deltas choice with
    | Some (dt, drel) =>
        resp_public_trust resp = clamp (default 50 (doc_public_trust doc) + dt) ∧
        rel_moved drel (default ∅ (doc_relationships doc)) (resp_relationships resp)
    | None =>
        resp_public_trust resp = default 50 (doc_public_trust doc) ∧
        resp_relationships resp = default ∅ (doc_relationships doc) ∧
        resp_outcome resp = PDict [("message", PStr "No effect")] ∧
        stored (persist body resp db) (req_session_id body) =
          stored db (req_session_id body)
    end ∧
    (choice = PStr "participate" →
     default 50 (doc_public_trust doc) = 50 →
     default ∅ (doc_relationships doc) = ∅ →
     resp_public_trust resp = 38 ∧
     resp_relationships resp !! "victim" = Some 40 ∧
     resp_relationships resp !! "bystander" = Some 40).
Proof.
  intros Hdoc Ht Hr Hm Hok Hfield.
  assert (Hchoice : dict_get (req_payload body) "choice" PNone = choice).
  { destruct Hfield as [Hin|[Hnot ->]];
      [exact (dict_get_field _ _ _ _ Hok Hin)|exact (dict_get_no_field _ _ _ Hnot)]. }
  assert (Hstored : stored db (req_session_id body)
                    = Some (read_player (req_session_id body) doc))
    by (unfold stored; rewrite Hdoc; reflexivity).
  pose proof (rel_get_in_range _ "victim" Hr) as Hvictim.
  pose proof (rel_get_in_range _ "bystander" Hr) as Hbystander.
  unfold in_range, rel_get in Hvictim, Hbystander.
  destruct choice as [| | |s| |]; cbn [ethical_deltas].
  4: destruct (String.eqb s "intervene") eqn:H1;
       [|destruct (String.eqb s "report") eqn:H2;
         [|destruct (String.eqb s "stay_silent") eqn:H3;
           [|destruct (String.eqb s "participate") eqn:H4]]].
  all: (eexists; split;
        [ eapply returns_persist; run_handler; rewrite Hdoc, Hm, Hchoice;
          cbn [py_eq String.eqb Ascii.eqb Bool.eqb];
          rewrite ?H1, ?H2, ?H3, ?H4; rewrite Hdoc; reflexivity
        | cbn -[clamp rel_moved];
          split; [reflexivity|split; [reflexivity|split]] ]).
  all: try (intros [=]; fail).
  all: try (split; [reflexivity|split; [reflexivity|split; [reflexivity|]]];
            rewrite Hstored; unfold stored, persist; cbn;
            rewrite lookup_insert_eq; reflexivity).
  all: try (intros [= ->]; discriminate).
  all: try (split; [unfold clamp, in_range in *; lia|rel_moved_cases]).
  intros _ Ht50 Hr0. rewrite Ht50, Hr0.
  split; [reflexivity|split; reflexivity].
Qed.

Lemma ethical_rule_witness :
  let body := choice_s1 "Ethical" [("choice", PStr "intervene")] in
  ∃ resp,
    submit_choice body db_victim90 = (inr resp, persist body resp db_victim90) ∧
    resp_public_trust resp = 56 ∧
    resp_relationships resp !! "victim" = Some 98 ∧
    resp_relationships resp !! "bystander" = Some 58.
Proof.
  intros body.
  assert (H50 : in_range 50) by (unfold in_range; lia).
  assert (H90 : map_Forall (λ (_ : string) v, in_range v)
                           ({[ "victim" := 90 ]} : gmap string Z)).
  { apply map_Forall_singleton. unfold in_range. lia. }
  assert (Hok : payload_ok (req_payload body)).
  { unfold payload_ok; cbn. apply NoDup_singleton. }
  assert (Hin : has_field (req_payload body) "choice" (PStr "intervene")).
  { unfold has_field; cbn. apply list_elem_of_here. }
  destruct (ethical_rule body db_victim90 doc_victim90 (PStr "intervene")
              eq_refl H50 H90 eq_refl Hok (or_introl Hin))
    as (resp & Hrun & _ & _ & Hrule & _).
  cbn in Hrule. destruct Hrule as (Htrust & Hmoved & _).
  exists resp. split; [exact Hrun|]. split; [exact Htrust|].
  split.
  - exact (Hmoved "victim" 8 ltac:(apply list_elem_of_here)).
  - exact (Hmoved "bystander" 8
             ltac:(apply list_elem_of_further, list_elem_of_here)).
Defined.

(** ** Professional *)

(** The response of the professional branch, by the truth value of
    [success]. *)
Lemma professional_run (body : ChoiceRequest) (db : database) (doc : player_doc) :
  player db !! req_session_id body = Some doc →
  lower (req_module body) = "professional" →
  ∃ resp,
    submit_choice body db = (inr resp, persist body resp db) ∧
    resp_session_id resp = req_session_id body ∧
    resp_personal_clout resp = default 50 (doc_personal_clout doc) ∧
    resp_relationships resp = default ∅ (doc_relationships doc) ∧
    if truthy (dict_get (req_payload body) "success" (PBool false)) then
      resp_professional_skill resp
        = Z.min 100 (default 0 (doc_professional_skill doc) + 7) ∧
      resp_public_trust resp = Z.min 100 (default 50 (doc_public_trust doc) + 2) ∧
      resp_outcome resp =
        PDict [("message", PStr "Professional skill leveled up!");
               ("delta", PDict [("professional_skill", PInt 7);
                                ("public_trust", PInt 2)])]
    else
      resp_professional_skill resp
        = Z.max 0 (default 0 (doc_professional_skill doc) - 2) ∧
      resp_public_trust resp = default 50 (doc_public_trust doc) ∧
      resp_outcome resp =
        PDict [("message", PStr "Incomplete attempt. Try again.");
               ("delta", PDict [("professional_skill", PInt (-2))])].
Proof.
  intros Hdoc Hm.
  destruct (truthy (dict_get (req_payload body) "success" (PBool false))) eqn:Hs;
    (eexists; split;
     [ eapply returns_persist; run_handler; rewrite Hdoc, Hm;
       cbn [String.eqb Ascii.eqb Bool.eqb]; rewrite Hs, Hdoc; reflexivity
     | cbn; repeat split; reflexivity ]).
Qed.

(** Failed attempts keep a skill of 0 at 0, however many are made. *)
Lemma repeat_failure_floor (body : ChoiceRequest) (n : nat) :
  lower (req_module body) = "professional" →
  truthy (dict_get (req_payload body) "success" (PBool false)) = false →
  ∀ (db : database) (doc : player_doc),
    player db !! req_session_id body = Some doc →
    default 0 (doc_professional_skill doc) = 0 →
    professional_skill <$> stored (repeat_choice n body db) (req_session_id body)
      = Some 0.
Proof.
  intros Hm Hs. induction n as [|n IH]; intros db doc Hdoc Hzero.
  - unfold stored; cbn. rewrite Hdoc. cbn. rewrite Hzero. reflexivity.
  - cbn [repeat_choice].
    destruct (professional_run body db doc Hdoc Hm) as (resp & -> & _ & _ & _ & Hres).
    rewrite Hs in Hres. destruct Hres as (Hskill & _ & _).
    cbn [snd]. eapply IH.
    + unfold persist; cbn. apply lookup_insert_eq.
    + cbn. rewrite Hskill, Hzero. reflexivity.
Qed.

Lemma assoc_lookup_elem {V : Type} (d : list (string * V)) (k : string) (v : V) :
  assoc_lookup k d = Some v → (k, v) ∈ d.
Proof.
  induction d as [|[k' v'] d IH]; cbn [assoc_lookup]; [discriminate|].
  destruct (String.eqb_spec k k') as [->|_].
  - intros [= ->]. apply list_elem_of_here.
  - intros Hfound. apply list_elem_of_further, IH, Hfound.
Qed.

Lemma assoc_lookup_same_field (p1 p2 : pydict) (k : string) :
  payload_ok p1 → payload_ok p2 →
  (∀ v, has_field p2 k v ↔ has_field p1 k v) →
  assoc_lookup k p2 = assoc_lookup k p1.
Proof.
  intros Hok1 Hok2 Hsame.
  destruct (assoc_lookup k p1) as [v|] eqn:H1.
  - apply assoc_lookup_field; [exact Hok2|].
    apply Hsame, assoc_lookup_elem, H1.
  - destruct (assoc_lookup k p2) as [v|] eqn:H2; [|reflexivity].
    apply assoc_lookup_elem, Hsame in H2.
    rewrite (assoc_lookup_field p1 k v Hok1 H2) in H1. discriminate.
Qed.

(** C4: on a professional submission, from trust and skill within
    [0,100]: when the payload's [success] field is [true], skill becomes
    clamp(skill + 7) and trust clamp(trust + 2); when it is [false] or
    the payload has no such field, skill becomes max(0, skill - 2) and
    trust is kept.  Two payloads that agree on their [success] field give
    the same stats and outcome, so [task] plays no part in the scoring.
    Starting from skill 0, any number of failed submissions in a row (30
    among them) leaves the stored skill at 0. *)
Theorem professional_rule (body : ChoiceRequest) (db : database) (doc : player_doc) :
  player db !! req_session_id body = Some doc →
  in_range (default 50 (doc_public_trust doc)) →
  in_range (default 0 (doc_professional_skill doc)) →
  lower (req_module body) = "professional" →
  payload_ok (req_payload body) →
  ∃ resp,
    submit_choice body db = (inr resp, persist body resp db) ∧
    (has_field (req_payload body) "success" (PBool true) →
     resp_professional_skill resp
       = clamp (default 0 (doc_professional_skill doc) + 7) ∧
     resp_public_trust resp = clamp (default 50 (doc_public_trust doc) + 2)) ∧
    (has_field (req_payload body) "success" (PBool false) ∨
     no_field (req_payload body) "success" →
     resp_professional_skill resp
       = Z.max 0 (default 0 (doc_professional_skill doc) - 2) ∧
     resp_public_trust resp = default 50 (doc_public_trust doc) ∧
     (default 0 (doc_professional_skill doc) = 0 →
      ∀ n : nat,
        professional_skill <$>
          stored (repeat_choice n body db) (req_session_id body) = Some 0)) ∧
    (∀ body2 : ChoiceRequest,
       req_session_id body2 = req_session_id body →
       lower (req_module body2) = "professional" →
       payload_ok (req_payload body2) →
       (∀ v, has_field (req_payload body2) "success" v
             ↔ has_field (req_payload body) "success" v) →
       ∃ resp2,
         submit_choice body2 db = (inr resp2, persist body2 resp2 db) ∧
         resp_player resp2 = resp_player resp ∧
         resp_outcome resp2 = resp_outcome resp).
Proof.
  intros Hdoc Ht Hs Hm Hok.
  destruct (professional_run body db doc Hdoc Hm)
    as (resp & Hrun & Hsid & Hclout & Hrel & Hres).
  exists resp. split; [exact Hrun|]. split; [|split].
  - intros Hsucc.
    rewrite (dict_get_field _ _ _ _ Hok Hsucc) in Hres. cbn in Hres.
    destruct Hres as (-> & -> & _).
    rewrite !clamp_incr by (assumption || lia). split; reflexivity.
  - intros Hfail.
    assert (Hfalse : truthy (dict_get (req_payload body) "success" (PBool false)) = false).
    { destruct Hfail as [Hin|Hnot].
      - rewrite (dict_get_field _ _ _ _ Hok Hin). reflexivity.
      - rewrite (dict_get_no_field _ _ _ Hnot). reflexivity. }
    rewrite Hfalse in Hres. destruct Hres as (Hskill & Htrust & _).
    split; [exact Hskill|split; [exact Htrust|]].
    intros Hzero n. exact (repeat_failure_floor body n Hm Hfalse db doc Hdoc Hzero).
  - intros body2 Hsid2 Hm2 Hok2 Hsame.
    rewrite <- Hsid2 in Hdoc.
    destruct (professional_run body2 db doc Hdoc Hm2)
      as (resp2 & Hrun2 & Hsid' & Hclout2 & Hrel2 & Hres2).
    exists resp2. split; [exact Hrun2|].
    unfold dict_get in Hres, Hres2.
    rewrite (assoc_lookup_same_field _ _ "success" Hok Hok2 Hsame) in Hres2.
    destruct resp as [a1 a2 a3 a4 a5 a6], resp2 as [b1 b2 b3 b4 b5 b6].
    unfold resp_player; cbn in *.
    destruct (truthy _);
      destruct Hres as (-> & -> & ->), Hres2 as (-> & -> & ->);
      subst; rewrite Hsid2; split; reflexivity.
Qed.

Lemma professional_rule_witness :
  let passed := choice_s1 "Professional"
                  [("task", PStr "email"); ("success", PBool true)] in
  let failed := choice_s1 "Professional"
                  [("task", PStr "email"); ("success", PBool false)] in
  (∃ resp,
     submit_choice passed db_victim90 = (inr resp, persist passed resp db_victim90) ∧
     resp_professional_skill resp = 17 ∧ resp_public_trust resp = 52) ∧
  (∃ resp,
     submit_choice failed db_s1 = (inr resp, persist failed resp db_s1) ∧
     resp_professional_skill resp = 0 ∧
     professional_skill <$> stored (repeat_choice 30 failed db_s1) "s1" = Some 0).
Proof.
  intros passed failed.
  assert (H50 : in_range 50) by (unfold in_range; lia).
  assert (H10 : in_range 10) by (unfold in_range; lia).
  assert (H0 : in_range 0) by (unfold in_range; lia).
  assert (Hkeys : NoDup ["task"; "success"]).
  { apply NoDup_cons. split; [|apply NoDup_singleton].
    intros Hin. apply list_elem_of_singleton in Hin. discriminate. }
  split.
  - destruct (professional_rule passed db_victim90 doc_victim90
                eq_refl H50 H10 eq_refl Hkeys)
      as (resp & Hrun & Hpass & _).
    assert (Hin : has_field (req_payload passed) "success" (PBool true))
      by (apply list_elem_of_further, list_elem_of_here).
    destruct (Hpass Hin) as (Hskill & Htrust).
    exists resp. split; [exact Hrun|]. split; [exact Hskill|exact Htrust].
  - destruct (professional_rule failed db_s1 doc_default
                eq_refl H50 H0 eq_refl Hkeys)
      as (resp & Hrun & _ & Hfail & _).
    assert (Hin : has_field (req_payload failed) "success" (PBool false))
      by (apply list_elem_of_further, list_elem_of_here).
    destruct (Hfail (or_introl Hin)) as (Hskill & _ & Hfloor).
    exists resp. split; [exact Hrun|]. split; [exact Hskill|].
    exact (Hfloor eq_refl 30%nat).
Defined.

(** ** Payload values outside the documented sets *)

Lemma submit_choice_known (body : ChoiceRequest) (db : database) (doc : player_doc) :
  player db !! req_session_id body = Some doc →
  known_module (lower (req_module body)) = true →
  ∃ resp, submit_choice body db = (inr resp, persist body resp db).
Proof.
  intros Hdoc Hknown.
  destruct (submit_choice body db) as [[e|resp] db'] eqn:Hrun.
  - apply submit_choice_raises in Hrun as (_ & [(_ & Hnone) | (_ & _ & Hk)]);
      congruence.
  - exists resp. apply submit_choice_returns in Hrun as (_ & _ & ->). reflexivity.
Qed.

Lemma ethical_other_choice (body : ChoiceRequest) (db db' : database)
    (doc : player_doc) (resp : ChoiceResponse) :
  player db !! req_session_id body = Some doc →
  lower (req_module body) = "ethical" →
  ethical_deltas (dict_get (req_payload body) "choice" PNone) = None →
  submit_choice body db = (inr resp, db') →
  resp_player resp = read_player (req_session_id body) doc ∧
  resp_outcome resp = PDict [("message", PStr "No effect")].
Proof.
  intros Hdoc Hm Hnone. run_handler. rewrite Hdoc, Hm.
  cbn [String.eqb Ascii.eqb Bool.eqb].
  destruct (dict_get (req_payload body) "choice" PNone) as [| | |s| |];
    cbn [py_eq ethical_deltas] in *.
  4: destruct (String.eqb s "intervene"); [discriminate|];
     destruct (String.eqb s "report"); [discriminate|];
     destruct (String.eqb s "stay_silent"); [discriminate|];
     destruct (String.eqb s "participate"); [discriminate|].
  all: rewrite Hdoc; intros [= <- _]; split; reflexivity.
Qed.

Lemma prebunking_outcome (body : ChoiceRequest) (db db' : database)
    (doc : player_doc) (resp : ChoiceResponse) :
  player db !! req_session_id body = Some doc →
  lower (req_module body) = "prebunking" →
  submit_choice body db = (inr resp, db') →
  if py_eq (dict_get (req_payload body) "label" PNone)
           (dict_get (req_payload body) "truth" PNone)
  then outcome_message (resp_outcome resp) = Some (PStr "Good call.") ∧
       outcome_delta (resp_outcome resp) "public_trust" = Some (PInt 5) ∧
       resp_public_trust resp = Z.min 100 (default 50 (doc_public_trust doc) + 5)
  else outcome_message (resp_outcome resp)
         = Some (PStr "That choice undermined trust.") ∧
       outcome_delta (resp_outcome resp) "public_trust" = Some (PInt (-8)) ∧
       resp_public_trust resp = Z.max 0 (default 50 (doc_public_trust doc) - 8).
Proof.
  intros Hdoc Hm. run_handler. rewrite Hdoc, Hm.
  cbn [String.eqb Ascii.eqb Bool.eqb].
  destruct (py_eq _ _); rewrite Hdoc; intros [= <- _];
    (split; [reflexivity|split; reflexivity]).
Qed.

(** C5, as the code has it: with a known module tag and an existing
    session a submission never raises, whatever its payload holds.  An
    ethical choice outside the four recognized values (or missing) keeps
    the stats and answers "No effect".  The other two modules have no
    such case: prebunking compares [label] and [truth] with [==]
    whatever they are, and professional tests the truth value of
    [success], so each applies one of its two scoring rules. *)
Theorem known_module_never_raises (body : ChoiceRequest) (db : database)
    (doc : player_doc) :
  player db !! req_session_id body = Some doc →
  known_module (lower (req_module body)) = true →
  ∃ resp,
    submit_choice body db = (inr resp, persist body resp db) ∧
    (lower (req_module body) = "ethical" →
     ethical_deltas (dict_get (req_payload body) "choice" PNone) = None →
     resp_player resp = read_player (req_session_id body) doc ∧
     stored (persist body resp db) (req_session_id body)
       = stored db (req_session_id body) ∧
     resp_outcome resp = PDict [("message", PStr "No effect")]) ∧
    (lower (req_module body) = "prebunking" →
     if py_eq (dict_get (req_payload body) "label" PNone)
              (dict_get (req_payload body) "truth" PNone)
     then outcome_delta (resp_outcome resp) "public_trust" = Some (PInt 5) ∧
          resp_public_trust resp
            = Z.min 100 (default 50 (doc_public_trust doc) + 5)
     else outcome_delta (resp_outcome resp) "public_trust" = Some (PInt (-8)) ∧
          resp_public_trust resp
            = Z.max 0 (default 50 (doc_public_trust doc) - 8)) ∧
    (lower (req_module body) = "professional" →
     if truthy (dict_get (req_payload body) "success" (PBool false))
     then outcome_delta (resp_outcome resp) "professional_skill" = Some (PInt 7) ∧
          resp_professional_skill resp
            = Z.min 100 (default 0 (doc_professional_skill doc) + 7)
     else outcome_delta (resp_outcome resp) "professional_skill" = Some (PInt (-2)) ∧
          resp_professional_skill resp
            = Z.max 0 (default 0 (doc_professional_skill doc) - 2)).
Proof.
  intros Hdoc Hknown.
  destruct (submit_choice_known body db doc Hdoc Hknown) as (resp & Hrun).
  exists resp. split; [exact Hrun|]. split; [|split].
  - intros Hm Hnone.
    destruct (ethical_other_choice _ _ _ _ _ Hdoc Hm Hnone Hrun) as (Hsame & Hout).
    split; [exact Hsame|split; [|exact Hout]].
    destruct (submit_choice_returns _ _ _ _ Hrun) as (_ & Hsid & _).
    unfold stored, persist; cbn. rewrite lookup_insert_eq, Hdoc. cbn.
    rewrite <- Hsame. unfold read_player, resp_player; cbn.
    rewrite Hsid. reflexivity.
  - intros Hm. pose proof (prebunking_outcome _ _ _ _ _ Hdoc Hm Hrun) as Hout.
    destruct (py_eq _ _); destruct Hout as (_ & Hd & Ht); split; assumption.
  - intros Hm.
    destruct (professional_run body db doc Hdoc Hm)
      as (resp' & Hrun' & _ & _ & _ & Hres).
    rewrite Hrun in Hrun'. injection Hrun' as <- _.
    destruct (truthy _); destruct Hres as (Hskill & _ & ->);
      (split; [reflexivity|exact Hskill]).
Qed.

Lemma known_module_never_raises_witness :
  let body := choice_s1 "ethical" [("choice", PStr "shrug")] in
  ∃ resp,
    submit_choice body db_s1 = (inr resp, persist body resp db_s1) ∧
    resp_player resp = read_player "s1" doc_default ∧
    resp_outcome resp = PDict [("message", PStr "No effect")].
Proof.
  intros body.
  destruct (known_module_never_raises body db_s1 doc_default eq_refl eq_refl)
    as (resp & Hrun & Hnoop & _).
  destruct (Hnoop eq_refl eq_refl) as (Hsame & _ & Hout).
  exists resp. split; [exact Hrun|split; [exact Hsame|exact Hout]].
Defined.

(** C5, as stated, fails: a prebunking submission with neither [label]
    nor [truth] compares [None == None], counts as correct and moves
    trust from 50 to 55 and clout to 49; a professional submission whose
    [success] is the string "no" is truthy and raises the skill to 7. *)
Lemma unrecognized_payload_scores :
  (∃ resp db',
     submit_choice (choice_s1 "prebunking" []) db_s1 = (inr resp, db') ∧
     resp_public_trust resp = 55 ∧ resp_personal_clout resp = 49 ∧
     stored db' "s1" ≠ stored db_s1 "s1") ∧
  (∃ resp db',
     submit_choice (choice_s1 "professional" [("success", PStr "no")]) db_s1
       = (inr resp, db') ∧
     resp_professional_skill resp = 7 ∧ resp_public_trust resp = 52 ∧
     stored db' "s1" ≠ stored db_s1 "s1").
Proof.
  split.
  - eexists _, _. split; [vm_compute; reflexivity|].
    split; [reflexivity|split; [reflexivity|]].
    intros Heq. vm_compute in Heq. discriminate.
  - eexists _, _. split; [vm_compute; reflexivity|].
    split; [reflexivity|split; [reflexivity|]].
    intros Heq. vm_compute in Heq. discriminate.
Qed.

(** ** The module tag *)

Lemma submit_choice_returns_known (body : ChoiceRequest) (db db' : database)
    (resp : ChoiceResponse) :
  submit_choice body db = (inr resp, db') →
  known_module (lower (req_module body)) = true.
Proof.
  run_handler. unfold known_module.
  destruct (player db !! req_session_id body) as [doc|]; [|discriminate].
  destruct (String.eqb (lower (req_module body)) "prebunking"); [reflexivity|].
  destruct (String.eqb (lower (req_module body)) "ethical"); [reflexivity|].
  destruct (String.eqb (lower (req_module body)) "professional"); [reflexivity|].
  discriminate.
Qed.







(** ** Session start *)

(** C8: [start_session] returns the stats of the record stored for the
    id, leaving the store untouched, when there is one; otherwise it
    stores and returns a record with trust 50, clout 50, skill 0 and no
    relationships, writing nothing else.  A second call with the same id
    returns the very same stats and changes nothing. *)
Theorem start_session_idempotent (body : StartSessionRequest) (db : database) :
  ∃ p db1,
    start_session body db = (inr p, db1) ∧
    match player db !! start_session_id body with
    | Some doc => p = read_player (start_session_id body) doc ∧ db1 = db
    | None =>
        p = {| session_id := start_session_id body;
               public_trust := 50;
               personal_clout := 50;
               professional_skill := 0;
               relationships := ∅ |} ∧
        stored db1 (start_session_id body) = Some p ∧
        actionlog db1 = actionlog db ∧
        ∀ sid, sid ≠ start_session_id body → player db1 !! sid = player db !! sid
    end ∧
    start_session body db1 = (inr p, db1).
Proof.
  run_handler. destruct (player db !! start_session_id body) as [doc|] eqn:Hdoc.
  - eexists _, _. split; [reflexivity|]. split; [split; reflexivity|].
    rewrite Hdoc. reflexivity.
  - eexists _, _. split; [reflexivity|]. cbn. split; [split; [reflexivity|split; [|split]]|].
    + unfold stored; cbn. rewrite lookup_insert_eq. reflexivity.
    + reflexivity.
    + intros sid Hne. rewrite lookup_insert_ne; [reflexivity|congruence].
    + rewrite lookup_insert_eq. reflexivity.
Qed.

(** ** Reported deltas *)

Lemma rel_get_insert_ne (rel : gmap string Z) (k k' : string) (v : Z) :
  k ≠ k' → rel_get (<[k := v]> rel) k' = rel_get rel k'.
Proof. intros Hne. unfold rel_get. rewrite lookup_insert_ne by exact Hne. reflexivity. Qed.

Lemma submit_choice_mirrors (body : ChoiceRequest) (db db' : database)
    (doc : player_doc) (resp : ChoiceResponse) :
  player db !! req_session_id body = Some doc →
  player_in_range (read_player (req_session_id body) doc) →
  submit_choice body db = (inr resp, db') →
  (∃ msg, outcome_message (resp_outcome resp) = Some (PStr msg) ∧ msg ≠ "") ∧
  mirrors (outcome_delta (resp_outcome resp) "public_trust")
          (default 50 (doc_public_trust doc)) (resp_public_trust resp) ∧
  mirrors (outcome_delta (resp_outcome resp) "personal_clout")
          (default 50 (doc_personal_clout doc)) (resp_personal_clout resp) ∧
  mirrors (outcome_delta (resp_outcome resp) "professional_skill")
          (default 0 (doc_professional_skill doc)) (resp_professional_skill resp) ∧
  ∀ k, rel_mirrors (outcome_rel_delta (resp_outcome resp) k) k
         (default ∅ (doc_relationships doc)) (resp_relationships resp).
Proof.
  intros Hdoc (Ht & Hc & Hs & Hr). cbn in Ht, Hc, Hs, Hr.
  run_handler. rewrite Hdoc. intros H.
  repeat match type of H with
         | context [negb ?b] => destruct b; cbn [negb] in H
         | context [if ?b then _ else _] => destruct b
         end;
    rewrite ?Hdoc in H; try discriminate;
    inversion H; subst; clear H;
    (split; [eexists; split; [reflexivity|discriminate]|]);
    cbn -[clamp assoc_lookup];
    (split; [|split; [|split]]);
    try reflexivity;
    try (cbn -[clamp];
         rewrite ?(clamp_incr _ 5), ?(clamp_incr _ 2), ?(clamp_incr _ 4),
           ?(clamp_incr _ 6), ?(clamp_incr _ 7),
           ?(clamp_decr _ 1), ?(clamp_decr _ 8), ?(clamp_decr _ 2),
           ?(clamp_decr _ 5), ?(clamp_decr _ 12)
           by (assumption || lia);
         reflexivity).
  all: intros k; unfold outcome_rel_delta, outcome_delta;
    cbn [assoc_lookup String.eqb Ascii.eqb Bool.eqb andb];
    destruct (String.eqb_spec k "victim") as [->|Hv];
    [|try destruct (String.eqb_spec k "bystander") as [->|Hb]];
    unfold rel_mirrors;
    rewrite ?lookup_insert_eq, ?lookup_insert_ne, ?lookup_insert_eq,
      ?lookup_insert_ne, ?rel_get_insert_ne by congruence;
    rewrite ?(clamp_incr _ 8), ?(clamp_incr _ 6), ?(clamp_decr _ 7),
      ?(clamp_decr _ 10) by first [lia | apply rel_get_in_range; assumption];
    try reflexivity.
Qed.

(** C9: for a choice that returns, from stats within [0,100]: the
    outcome carries a non-empty message, the same outcome is the one
    logged, and the stored stats are the returned ones.  Every stat the
    outcome's delta reports has moved to clamp(before + delta), every
    stat it does not report is as before, and likewise for each
    relationship entry, counted from 50 when it was absent. *)
Theorem outcome_mirrors_arithmetic (body : ChoiceRequest) (db db' : database)
    (doc : player_doc) (resp : ChoiceResponse) :
  player db !! req_session_id body = Some doc →
  player_in_range (read_player (req_session_id body) doc) →
  submit_choice body db = (inr resp, db') →
  (∃ msg, outcome_message (resp_outcome resp) = Some (PStr msg) ∧ msg ≠ "") ∧
  log_outcome <$> last (actionlog db') = Some (resp_outcome resp) ∧
  stored db' (req_session_id body) = Some (resp_player resp) ∧
  mirrors (outcome_delta (resp_outcome resp) "public_trust")
          (default 50 (doc_public_trust doc)) (resp_public_trust resp) ∧
  mirrors (outcome_delta (resp_outcome resp) "personal_clout")
          (default 50 (doc_personal_clout doc)) (resp_personal_clout resp) ∧
  mirrors (outcome_delta (resp_outcome resp) "professional_skill")
          (default 0 (doc_professional_skill doc)) (resp_professional_skill resp) ∧
  ∀ k, rel_mirrors (outcome_rel_delta (resp_outcome resp) k) k
         (default ∅ (doc_relationships doc)) (resp_relationships resp).
Proof.
  intros Hdoc Hrange Hrun.
  destruct (submit_choice_mirrors _ _ _ _ _ Hdoc Hrange Hrun)
    as (Hmsg & Htrust & Hclout & Hskill & Hrel).
  destruct (submit_choice_returns _ _ _ _ Hrun) as (_ & Hsid & ->).
  split; [exact Hmsg|]. split; [|split].
  - unfold persist; cbn. rewrite last_snoc. reflexivity.
  - exact (stored_persist body resp db Hsid).
  - repeat (split; [assumption|]). exact Hrel.
Qed.

Lemma doc_victim90_in_range (sid : string) :
  player_in_range (read_player sid doc_victim90).
Proof.
  unfold player_in_range, in_range; cbn.
  split; [lia|split; [lia|split; [lia|]]].
  apply map_Forall_singleton. lia.
Qed.

Lemma outcome_mirrors_arithmetic_witness :
  let body := choice_s1 "ethical" [("choice", PStr "stay_silent")] in
  let resp := {| resp_session_id := "s1";
                 resp_public_trust := 45;
                 resp_personal_clout := 50;
                 resp_professional_skill := 10;
                 resp_relationships := {[ "victim" := 83 ]};
                 resp_outcome :=
                   PDict [("message", PStr "Silence has a cost.");
                          ("delta", PDict [("public_trust", PInt (-5));
                                           ("relationships",
                                            PDict [("victim", PInt (-7))])])] |} in
  submit_choice body db_victim90 = (inr resp, persist body resp db_victim90) ∧
  mirrors (Some (PInt (-5))) 50 (resp_public_trust resp) ∧
  rel_mirrors (Some (PInt (-7))) "victim" {[ "victim" := 90 ]}
              (resp_relationships resp) ∧
  affinity {[ "victim" := 90 ]} "victim" = 90.
Proof.
  intros body resp.
  assert (Hrun : submit_choice body db_victim90
                 = (inr resp, persist body resp db_victim90))
    by reflexivity.
  split; [exact Hrun|].
  destruct (outcome_mirrors_arithmetic body db_victim90 _ doc_victim90 resp
              eq_refl (doc_victim90_in_range "s1") Hrun)
    as (_ & _ & _ & Htrust & _ & _ & Hrel).
  split; [exact Htrust|]. split; [exact (Hrel "victim")|reflexivity].
Defined.

(** ** The frame on relationships *)

(** C10: a choice that returns leaves every relationship entry other
    than "victim" and "bystander" as it was: the same value when it was
    present, still absent when it was not, in the response and in the
    stored record alike. *)
Theorem other_relationships_kept (body : ChoiceRequest) (db db' : database)
    (resp : ChoiceResponse) (k : string) :
  submit_choice body db = (inr resp, db') →
  k ≠ "victim" → k ≠ "bystander" →
  ∃ before,
    relationships <$> stored db (req_session_id body) = Some before ∧
    relationships <$> stored db' (req_session_id body)
      = Some (resp_relationships resp) ∧
    resp_relationships resp !! k = before !! k.
Proof.
  intros Hrun Hv Hb.
  destruct (submit_choice_returns _ _ _ _ Hrun) as ([doc Hdoc] & Hsid & Hdb).
  exists (default ∅ (doc_relationships doc)).
  split; [unfold stored; rewrite Hdoc; reflexivity|].
  split; [rewrite Hdb, (stored_persist body resp db Hsid); reflexivity|].
  clear Hdb. revert Hrun. run_handler. rewrite Hdoc. intros H.
  repeat match type of H with
         | context [if ?b then _ else _] => destruct b
         end;
    rewrite ?Hdoc in H; try discriminate;
    inversion H; subst; clear H; cbn;
    rewrite ?lookup_insert_ne by congruence; reflexivity.
Qed.

Lemma other_relationships_kept_witness :
  let body := choice_s1 "ethical" [("choice", PStr "intervene")] in
  let db := {| player := {[ "s1" := {| doc_public_trust := Some 50;
                                       doc_personal_clout := Some 50;
                                       doc_professional_skill := Some 0;
                                       doc_relationships :=
                                         Some {[ "mentor" := 70 ]} |} ]};
               actionlog := [] |} in
  ∃ resp db',
    submit_choice body db = (inr resp, db') ∧
    resp_relationships resp !! "mentor" = Some 70 ∧
    resp_relationships resp !! "rival" = None.
Proof.
  intros body db.
  destruct (submit_choice body db) as [[e|resp] db'] eqn:Hrun;
    [vm_compute in Hrun; discriminate|].
  exists resp, db'. split; [reflexivity|].
  destruct (other_relationships_kept body db db' resp "mentor" Hrun
              ltac:(discriminate) ltac:(discriminate)) as (b1 & Hb1 & _ & H1).
  destruct (other_relationships_kept body db db' resp "rival" Hrun
              ltac:(discriminate) ltac:(discriminate)) as (b2 & Hb2 & _ & H2).
  injection Hb1 as <-. injection Hb2 as <-.
  split; [exact H1|exact H2].
Defined.

(** ** How the two endpoints compose *)


(** X1: the stats a choice returns are the ones [start_session] reads
    back for that session afterwards, and reading them writes nothing. *)
Theorem start_after_choice (body : ChoiceRequest) (db db' : database)
    (resp : ChoiceResponse) :
  submit_choice body db = (inr resp, db') →
  start_session (start_of (req_session_id body)) db'
  = (inr (resp_player resp), db').
Proof.
  intros Hrun. destruct (submit_choice_returns _ _ _ _ Hrun) as (_ & Hsid & ->).
  run_handler. unfold persist, start_of; cbn. rewrite lookup_insert_eq. cbn.
  unfold resp_player. rewrite Hsid. reflexivity.
Qed.

Lemma start_after_choice_witness :
  let body := choice_s1 "professional" [("success", PBool true)] in
  ∃ resp db',
    submit_choice body db_s1 = (inr resp, db') ∧
    start_session (start_of "s1") db' = (inr (resp_player resp), db') ∧
    professional_skill (resp_player resp) = 7.
Proof.
  intros body.
  destruct (submit_choice body db_s1) as [[e|resp] db'] eqn:Hrun;
    [vm_compute in Hrun; discriminate|].
  exists resp, db'. split; [reflexivity|].
  split; [exact (start_after_choice body db_s1 db' resp Hrun)|].
  vm_compute in Hrun. injection Hrun as <- _. reflexivity.
Defined.



(** ** The action log and the set of sessions *)

(** X3: a request appends to the action log and never rewrites it:
    [start_session] appends nothing, a choice that raises appends
    nothing, and a choice that returns appends exactly one entry holding
    the session id, the lowercased module, the action type, the payload
    and the returned outcome. *)
Theorem handle_actionlog (r : request) (db : database) :
  actionlog (handle r db) = (actionlog db ++ logged r db)%list.
Proof.
  destruct r as [body|body]; cbn [handle logged].
  - run_handler. destruct (player db !! start_session_id body); cbn;
      rewrite app_nil_r; reflexivity.
  - destruct (submit_choice body db) as [[e|resp] db'] eqn:Hrun; cbn [fst snd].
    + destruct (submit_choice_raises _ _ _ _ Hrun) as (-> & _).
      rewrite app_nil_r. reflexivity.
    + destruct (submit_choice_returns _ _ _ _ Hrun) as (_ & _ & ->). reflexivity.
Qed.

Lemma handle_dom (r : request) (db : database) :
  dom (player (handle r db)) = started r ∪ dom (player db).
Proof.
  destruct r as [body|body]; cbn [handle started].
  - run_handler. destruct (player db !! start_session_id body) as [doc|] eqn:Hdoc; cbn.
    + apply elem_of_dom_2 in Hdoc. set_solver.
    + rewrite dom_insert_L. reflexivity.
  - destruct (submit_choice body db) as [[e|resp] db'] eqn:Hrun; cbn [snd].
    + destruct (submit_choice_raises _ _ _ _ Hrun) as (-> & _). set_solver.
    + destruct (submit_choice_returns _ _ _ _ Hrun) as ([doc Hdoc] & _ & ->).
      unfold persist; cbn. rewrite dom_insert_L.
      apply elem_of_dom_2 in Hdoc. set_solver.
Qed.

(** X4: the player records after any sequence of requests are exactly
    those present before plus those of the ids [start_session] was
    called with: a choice never creates a record and nothing ever
    deletes one. *)
Theorem run_dom (rs : list request) (db : database) :
  dom (player (run rs db)) = ⋃ (started <$> rs) ∪ dom (player db).
Proof.
  unfold run. revert db. induction rs as [|r rs IH]; intros db; cbn.
  - set_solver.
  - rewrite IH, handle_dom. set_solver.
Qed.

Lemma log_entry_ok_handle (r : request) (db : database) (l : ActionLog) :
  log_entry_ok db l → log_entry_ok (handle r db) l.
Proof.
  intros (Hknown & Hrec). split; [exact Hknown|].
  apply elem_of_dom. rewrite handle_dom. apply elem_of_dom in Hrec. set_solver.
Qed.

Lemma handle_log_ok (r : request) (db : database) :
  Forall (log_entry_ok db) (actionlog db) →
  Forall (log_entry_ok (handle r db)) (actionlog (handle r db)) ∧
  (length (logged r db) ≤ 1)%nat.
Proof.
  intros Hall. rewrite handle_actionlog.
  assert (Hold : Forall (log_entry_ok (handle r db)) (actionlog db)).
  { eapply Forall_impl; [exact Hall|]. intros l. apply log_entry_ok_handle. }
  destruct r as [body|body]; cbn [logged].
  - rewrite app_nil_r. split; [exact Hold|cbn; lia].
  - destruct (submit_choice body db) as [[e|resp] db'] eqn:Hrun; cbn [fst].
    + rewrite app_nil_r. split; [exact Hold|cbn; lia].
    + split; [|cbn; lia]. apply Forall_app. split; [exact Hold|].
      apply Forall_singleton.
      split; cbn [log_entry log_module log_session_id].
      * exact (submit_choice_returns_known _ _ _ _ Hrun).
      * apply elem_of_dom. rewrite handle_dom.
        destruct (submit_choice_returns _ _ _ _ Hrun) as (Hrec & _ & _).
        apply elem_of_dom in Hrec. set_solver.
Qed.

(** X5: in any store the two endpoints produce from the empty one, every
    log entry carries one of the three lowercase module tags and belongs
    to a session that has a player record, and there are at most as many
    entries as requests were made. *)
Theorem run_log_entries_ok (rs : list request) :
  let db := run rs {| player := ∅; actionlog := [] |} in
  Forall (log_entry_ok db) (actionlog db) ∧
  (length (actionlog db) ≤ length rs)%nat.
Proof.
  cbn zeta. unfold run.
  assert (Hgen : ∀ db,
             Forall (log_entry_ok db) (actionlog db) →
             let db' := fold_left (λ db r, handle r db) rs db in
             Forall (log_entry_ok db') (actionlog db') ∧
             (length (actionlog db') ≤ length (actionlog db) + length rs)%nat).
  { induction rs as [|r rs IH]; intros db Hall; cbn.
    - split; [exact Hall|lia].
    - destruct (handle_log_ok r db Hall) as (Hnext & Hone).
      destruct (IH (handle r db) Hnext) as (Hend & Hlen).
      split; [exact Hend|].
      cbn zeta in Hlen. rewrite handle_actionlog, length_app in Hlen. lia. }
  apply (Hgen {| player := ∅; actionlog := [] |}). cbn. constructor.
Qed.

(** ** The module tag is normalised *)

Lemma lower_ascii_idempotent (c : ascii) : lower_ascii (lower_ascii c) = lower_ascii c.
Proof. destruct c as [[] [] [] [] [] [] [] []]; reflexivity. Qed.

Lemma lower_idempotent (s : string) : lower (lower s) = lower s.
Proof.
  induction s as [|c s IH]; cbn [lower]; [reflexivity|].
  rewrite lower_ascii_idempotent, IH. reflexivity.
Qed.

(** X6: only the lowercased module tag is ever used, the log entry
    included: submitting a request under the lowercase form of its tag
    gives the same result and the same store as submitting it as it is. *)
Theorem lowercase_module_same (body : ChoiceRequest) (db : database) :
  submit_choice (with_module (lower (req_module body)) body) db
  = submit_choice body db.
Proof.
  unfold submit_choice, with_module; cbn [req_session_id req_module
    req_action_type req_payload].
  rewrite lower_idempotent. reflexivity.
Qed.

(** ** Sessions do not interfere *)

Lemma submit_choice_fst_local (body : ChoiceRequest) (db1 db2 : database) :
  player db1 !! req_session_id body = player db2 !! req_session_id body →
  (submit_choice body db1).1 = (submit_choice body db2).1.
Proof.
  intros Hsame. run_handler. rewrite <- Hsame.
  destruct (player db1 !! req_session_id body) as [doc|]; [|reflexivity].
  repeat match goal with
         | |- context [if ?b then _ else _] => destruct b
         end; reflexivity.
Qed.

Lemma submit_choice_frame (body : ChoiceRequest) (db : database) (sid : string) :
  sid ≠ req_session_id body →
  player (submit_choice body db).2 !! sid = player db !! sid.
Proof.
  intros Hne. destruct (submit_choice body db) as [[e|resp] db'] eqn:Hrun; cbn [snd].
  - destruct (submit_choice_raises _ _ _ _ Hrun) as (-> & _). reflexivity.
  - destruct (submit_choice_returns _ _ _ _ Hrun) as (_ & _ & ->).
    unfold persist; cbn. rewrite lookup_insert_ne; [reflexivity|congruence].
Qed.

(** The record a call leaves for its own session is read off its result. *)
Lemma submit_choice_own_record (body : ChoiceRequest) (db : database) :
  player (submit_choice body db).2
  = match (submit_choice body db).1 with
    | inr resp =>
        <[req_session_id body :=
            {| doc_public_trust := Some (resp_public_trust resp);
               doc_personal_clout := Some (resp_personal_clout resp);
               doc_professional_skill := Some (resp_professional_skill resp);
               doc_relationships := Some (resp_relationships resp) |}]> (player db)
    | inl _ => player db
    end.
Proof.
  destruct (submit_choice body db) as [[e|resp] db'] eqn:Hrun; cbn [fst snd].
  - destruct (submit_choice_raises _ _ _ _ Hrun) as (-> & _). reflexivity.
  - destruct (submit_choice_returns _ _ _ _ Hrun) as (_ & _ & ->). reflexivity.
Qed.

(** X7: the result of a choice, response or exception, and the record
    it leaves for its session depend on the store only through the
    record of that session: two stores that agree on it give the same
    result and the same record. *)
Theorem choice_reads_own_record (body : ChoiceRequest) (db1 db2 : database) :
  player db1 !! req_session_id body = player db2 !! req_session_id body →
  (submit_choice body db1).1 = (submit_choice body db2).1 ∧
  player (submit_choice body db1).2 !! req_session_id body
  = player (submit_choice body db2).2 !! req_session_id body.
Proof.
  intros Hsame.
  pose proof (submit_choice_fst_local body db1 db2 Hsame) as Hfst.
  split; [exact Hfst|].
  rewrite !submit_choice_own_record, Hfst.
  destruct ((submit_choice body db2).1) as [e|resp].
  - exact Hsame.
  - rewrite !lookup_insert_eq. reflexivity.
Qed.

Lemma choice_reads_own_record_witness :
  let body := choice_s1 "prebunking"
                [("label", PStr "hoax"); ("truth", PStr "hoax")] in
  let crowded :=
    {| player := <["s2" := {| doc_public_trust := Some 3;
                              doc_personal_clout := Some 99;
                              doc_professional_skill := Some 40;
                              doc_relationships := Some ∅ |}]> (player db_s1);
       actionlog := [] |} in
  player db_s1 !! "s1" = player crowded !! "s1" ∧
  (submit_choice body db_s1).1 = (submit_choice body crowded).1.
Proof.
  intros body crowded.
  assert (Hsame : player db_s1 !! req_session_id body
                  = player crowded !! req_session_id body) by reflexivity.
  split; [exact Hsame|].
  exact (proj1 (choice_reads_own_record body db_s1 crowded Hsame)).
Defined.

(** X8: choices for two different sessions do not interfere: each gets
    the same result whether it runs first or second, and the player
    records are the same in either order. *)
Theorem choices_commute (b1 b2 : ChoiceRequest) (db : database) :
  req_session_id b1 ≠ req_session_id b2 →
  (submit_choice b2 (submit_choice b1 db).2).1 = (submit_choice b2 db).1 ∧
  (submit_choice b1 (submit_choice b2 db).2).1 = (submit_choice b1 db).1 ∧
  player (submit_choice b2 (submit_choice b1 db).2).2
  = player (submit_choice b1 (submit_choice b2 db).2).2.
Proof.
  intros Hne.
  assert (H21 : (submit_choice b2 (submit_choice b1 db).2).1 = (submit_choice b2 db).1).
  { apply submit_choice_fst_local, submit_choice_frame. congruence. }
  assert (H12 : (submit_choice b1 (submit_choice b2 db).2).1 = (submit_choice b1 db).1).
  { apply submit_choice_fst_local, submit_choice_frame. congruence. }
  split; [exact H21|split; [exact H12|]].
  rewrite (submit_choice_own_record b2 (submit_choice b1 db).2), H21.
  rewrite (submit_choice_own_record b1 (submit_choice b2 db).2), H12.
  rewrite (submit_choice_own_record b1 db), (submit_choice_own_record b2 db).
  destruct ((submit_choice b1 db).1) as [e1|r1], ((submit_choice b2 db).1) as [e2|r2];
    try reflexivity.
  apply insert_insert_ne. congruence.
Qed.

Lemma choices_commute_witness :
  let two :=
    {| player := <["s2" := doc_default]> (player db_s1); actionlog := [] |} in
  let b1 := choice_s1 "ethical" [("choice", PStr "report")] in
  let b2 := {| req_session_id := "s2";
               req_module := "professional";
               req_action_type := "task";
               req_payload := [("success", PBool true)] |} in
  player (submit_choice b2 (submit_choice b1 two).2).2
  = player (submit_choice b1 (submit_choice b2 two).2).2.
Proof.
  intros two b1 b2.
  exact (proj2 (proj2 (choices_commute b1 b2 two ltac:(discriminate)))).
Defined.

(** ** Repeated professional submissions *)

Lemma repeat_success_closed (body : ChoiceRequest) :
  lower (req_module body) = "professional" →
  truthy (dict_get (req_payload body) "success" (PBool false)) = true →
  ∀ (n : nat) (db : database) (doc : player_doc),
    player db !! req_session_id body = Some doc →
    stored (repeat_choice (S n) body db) (req_session_id body)
    = Some {| session_id := req_session_id body;
              public_trust :=
                Z.min 100 (default 50 (doc_public_trust doc) + 2 * Z.of_nat (S n));
              personal_clout := default 50 (doc_personal_clout doc);
              professional_skill :=
                Z.min 100 (default 0 (doc_professional_skill doc) + 7 * Z.of_nat (S n));
              relationships := default ∅ (doc_relationships doc) |}.
Proof.
  intros Hm Hs. induction n as [|n IH]; intros db doc Hdoc;
    destruct (professional_run body db doc Hdoc Hm)
      as (resp & Hrun & Hsid & Hc & Hr & Hres);
    rewrite Hs in Hres; destruct Hres as (Hsk & Ht & _).
  - cbn [repeat_choice]. rewrite Hrun. cbn [snd].
    rewrite (stored_persist body resp db Hsid). unfold resp_player.
    rewrite Hsid, Hsk, Ht, Hc, Hr. do 2 f_equal; lia.
  - change (repeat_choice (S (S n)) body db)
      with (repeat_choice (S n) body (submit_choice body db).2).
    rewrite Hrun. cbn [snd].
    erewrite IH by (unfold persist; cbn; apply lookup_insert_eq).
    cbn. rewrite Hsk, Ht, Hc, Hr. do 2 f_equal; lia.
Qed.

Lemma repeat_failure_closed (body : ChoiceRequest) :
  lower (req_module body) = "professional" →
  truthy (dict_get (req_payload body) "success" (PBool false)) = false →
  ∀ (n : nat) (db : database) (doc : player_doc),
    player db !! req_session_id body = Some doc →
    stored (repeat_choice (S n) body db) (req_session_id body)
    = Some {| session_id := req_session_id body;
              public_trust := default 50 (doc_public_trust doc);
              personal_clout := default 50 (doc_personal_clout doc);
              professional_skill :=
                Z.max 0 (default 0 (doc_professional_skill doc) - 2 * Z.of_nat (S n));
              relationships := default ∅ (doc_relationships doc) |}.
Proof.
  intros Hm Hs. induction n as [|n IH]; intros db doc Hdoc;
    destruct (professional_run body db doc Hdoc Hm)
      as (resp & Hrun & Hsid & Hc & Hr & Hres);
    rewrite Hs in Hres; destruct Hres as (Hsk & Ht & _).
  - cbn [repeat_choice]. rewrite Hrun. cbn [snd].
    rewrite (stored_persist body resp db Hsid). unfold resp_player.
    rewrite Hsid, Hsk, Ht, Hc, Hr. do 2 f_equal; lia.
  - change (repeat_choice (S (S n)) body db)
      with (repeat_choice (S n) body (submit_choice body db).2).
    rewrite Hrun. cbn [snd].
    erewrite IH by (unfold persist; cbn; apply lookup_insert_eq).
    cbn. rewrite Hsk, Ht, Hc, Hr. do 2 f_equal; lia.
Qed.

(** X9: the same professional request submitted n >= 1 times in a row,
    whatever the stored stats: when [success] is truthy the skill ends at
    min(100, skill + 7n) and the trust at min(100, trust + 2n); otherwise
    the skill ends at max(0, skill - 2n) and the trust is as it was.
    Clout and relationships are as they were. *)
Theorem repeat_professional (body : ChoiceRequest) (db : database)
    (doc : player_doc) (n : nat) :
  player db !! req_session_id body = Some doc →
  lower (req_module body) = "professional" →
  (0 < n)%nat →
  let success := truthy (dict_get (req_payload body) "success" (PBool false)) in
  stored (repeat_choice n body db) (req_session_id body)
  = Some {| session_id := req_session_id body;
            public_trust :=
              if success
              then Z.min 100 (default 50 (doc_public_trust doc) + 2 * Z.of_nat n)
              else default 50 (doc_public_trust doc);
            personal_clout := default 50 (doc_personal_clout doc);
            professional_skill :=
              if success
              then Z.min 100 (default 0 (doc_professional_skill doc) + 7 * Z.of_nat n)
              else Z.max 0 (default 0 (doc_professional_skill doc) - 2 * Z.of_nat n);
            relationships := default ∅ (doc_relationships doc) |}.
Proof.
  intros Hdoc Hm Hn. destruct n as [|n]; [lia|]. cbn zeta.
  destruct (truthy (dict_get (req_payload body) "success" (PBool false))) eqn:Hs.
  - exact (repeat_success_closed body Hm Hs n db doc Hdoc).
  - exact (repeat_failure_closed body Hm Hs n db doc Hdoc).
Qed.

Lemma repeat_professional_witness :
  let body := choice_s1 "professional" [("success", PBool true)] in
  (professional_skill <$> stored (repeat_choice 15 body db_s1) "s1" = Some 100) ∧
  (public_trust <$> stored (repeat_choice 15 body db_s1) "s1" = Some 80).
Proof.
  intros body.
  pose proof (repeat_professional body db_s1 doc_default 15
                eq_refl eq_refl ltac:(lia)) as Hrun.
  change (req_session_id body) with "s1" in Hrun.
  rewrite Hrun. split; reflexivity.
Defined.

(** ** Stats outside the range, and how far a choice moves a stat *)

Ltac choice_cases H :=
  repeat match type of H with
         | context [negb ?b] => destruct b; cbn [negb] in H
         | context [if ?b then _ else _] => destruct b
         end.

(** X10: the handler clamps only on the side a stat moves towards, so a
    stored value outside [0,100] is not brought back in general; but
    whatever the stored values are, each stat and each relationship
    entry (read from 50 when absent) ends between its old value and the
    range: inside [0,100] when it was inside, and no further out when it
    was not. *)
Theorem choice_no_further_out (body : ChoiceRequest) (db db' : database)
    (doc : player_doc) (resp : ChoiceResponse) :
  player db !! req_session_id body = Some doc →
  submit_choice body db = (inr resp, db') →
  no_further_out (default 50 (doc_public_trust doc)) (resp_public_trust resp) ∧
  no_further_out (default 50 (doc_personal_clout doc)) (resp_personal_clout resp) ∧
  no_further_out (default 0 (doc_professional_skill doc))
                 (resp_professional_skill resp) ∧
  ∀ k, no_further_out (rel_get (default ∅ (doc_relationships doc)) k)
                      (rel_get (resp_relationships resp) k).
Proof.
  intros Hdoc. run_handler. rewrite Hdoc. intros H.
  choice_cases H; rewrite ?Hdoc in H; try discriminate;
    inversion H; subst; clear H; cbn -[rel_get];
    (split; [|split; [|split]]);
    try (unfold no_further_out; lia).
  all: intros k; unfold no_further_out;
    destruct (decide (k = "victim")) as [->|Hv];
    [|destruct (decide (k = "bystander")) as [->|Hb]];
    rel_lookups; lia.
Qed.

Lemma choice_no_further_out_witness :
  let low := {| player := {[ "s1" := {| doc_public_trust := Some (-20);
                                        doc_personal_clout := Some 50;
                                        doc_professional_skill := Some 0;
                                        doc_relationships := Some ∅ |} ]};
                actionlog := [] |} in
  let body := choice_s1 "ethical" [("choice", PStr "intervene")] in
  ∃ resp db',
    submit_choice body low = (inr resp, db') ∧
    resp_public_trust resp = -14 ∧
    no_further_out (-20) (resp_public_trust resp).
Proof.
  intros low body.
  destruct (submit_choice body low) as [[e|resp] db'] eqn:Hrun;
    [vm_compute in Hrun; discriminate|].
  exists resp, db'. split; [reflexivity|].
  destruct (choice_no_further_out body low db'
              {| doc_public_trust := Some (-20);
                 doc_personal_clout := Some 50;
                 doc_professional_skill := Some 0;
                 doc_relationships := Some ∅ |} resp eq_refl Hrun) as (Htrust & _).
  split; [|exact Htrust].
  vm_compute in Hrun. injection Hrun as <- _. reflexivity.
Defined.

(** X11: from stats within [0,100], one choice moves the trust by at
    most 12, the clout by at most 4, the skill by at most 7 and each
    relationship entry (read from 50 when absent) by at most 10. *)
Theorem choice_step_bounded (body : ChoiceRequest) (db db' : database)
    (doc : player_doc) (resp : ChoiceResponse) :
  player db !! req_session_id body = Some doc →
  player_in_range (read_player (req_session_id body) doc) →
  submit_choice body db = (inr resp, db') →
  Z.abs (resp_public_trust resp - default 50 (doc_public_trust doc)) ≤ 12 ∧
  Z.abs (resp_personal_clout resp - default 50 (doc_personal_clout doc)) ≤ 4 ∧
  Z.abs (resp_professional_skill resp - default 0 (doc_professional_skill doc)) ≤ 7 ∧
  ∀ k, Z.abs (rel_get (resp_relationships resp) k
              - rel_get (default ∅ (doc_relationships doc)) k) ≤ 10.
Proof.
  intros Hdoc (Ht & Hc & Hs & Hr). cbn in Ht, Hc, Hs, Hr.
  pose proof (rel_get_in_range _ "victim" Hr) as Hvictim.
  pose proof (rel_get_in_range _ "bystander" Hr) as Hbystander.
  unfold in_range, rel_get in Ht, Hc, Hs, Hvictim, Hbystander.
  run_handler. rewrite Hdoc. intros H.
  choice_cases H; rewrite ?Hdoc in H; try discriminate;
    inversion H; subst; clear H; cbn -[rel_get];
    (split; [|split; [|split]]);
    try lia.
  all: intros k;
    destruct (decide (k = "victim")) as [->|Hv];
    [|destruct (decide (k = "bystander")) as [->|Hb]];
    rel_lookups; lia.
Qed.

Lemma choice_step_bounded_witness :
  let body := choice_s1 "ethical" [("choice", PStr "participate")] in
  ∃ resp db',
    submit_choice body db_s1 = (inr resp, db') ∧
    Z.abs (resp_public_trust resp - 50) ≤ 12 ∧
    Z.abs (rel_get (resp_relationships resp) "victim" - 50) ≤ 10.
Proof.
  intros body.
  destruct (submit_choice body db_s1) as [[e|resp] db'] eqn:Hrun;
    [vm_compute in Hrun; discriminate|].
  exists resp, db'. split; [reflexivity|].
  destruct (choice_step_bounded body db_s1 db' doc_default resp
              eq_refl (doc_default_in_range "s1") Hrun) as (Htrust & _ & _ & Hrel).
  split; [exact Htrust|exact (Hrel "victim")].
Defined.

(** ** Which module writes which stat *)

(** X12: whatever the payload and the stored values, a choice that
    returns changes the clout only in the prebunking module, the skill
    only in the professional module and the relationships only in the
    ethical module; the trust is the one stat every module may move. *)
Theorem module_frame (body : ChoiceRequest) (db db' : database)
    (doc : player_doc) (resp : ChoiceResponse) :
  player db !! req_session_id body = Some doc →
  submit_choice body db = (inr resp, db') →
  (lower (req_module body) ≠ "prebunking" →
   resp_personal_clout resp = default 50 (doc_personal_clout doc)) ∧
  (lower (req_module body) ≠ "professional" →
   resp_professional_skill resp = default 0 (doc_professional_skill doc)) ∧
  (lower (req_module body) ≠ "ethical" →
   resp_relationships resp = default ∅ (doc_relationships doc)).
Proof.
  intros Hdoc. run_handler. rewrite Hdoc.
  destruct (String.eqb_spec (lower (req_module body)) "prebunking") as [Hp|Hp];
    [|destruct (String.eqb_spec (lower (req_module body)) "ethical") as [He|He];
      [|destruct (String.eqb_spec (lower (req_module body)) "professional")
          as [Hs|Hs]]];
    intros H; choice_cases H; rewrite ?Hdoc in H; try discriminate;
    inversion H; subst; clear H; cbn;
    (split; [|split]); intros Hneq; first [reflexivity | congruence].
Qed.

Lemma module_frame_witness :
  let body := choice_s1 "prebunking"
                [("label", PStr "hoax"); ("truth", PStr "verified")] in
  ∃ resp db',
    submit_choice body db_s1 = (inr resp, db') ∧
    resp_professional_skill resp = 0 ∧ resp_relationships resp = ∅.
Proof.
  intros body.
  destruct (submit_choice body db_s1) as [[e|resp] db'] eqn:Hrun;
    [vm_compute in Hrun; discriminate|].
  exists resp, db'. split; [reflexivity|].
  destruct (module_frame body db_s1 db' doc_default resp eq_refl Hrun)
    as (_ & Hskill & Hrel).
  split; [exact (Hskill ltac:(discriminate))|exact (Hrel ltac:(discriminate))].
Defined.

(** ** The diagnostic endpoint *)


(** X13: the [database_url] and [database_name] fields of the diagnostic
    report the environment only: each reads "Set" exactly when its
    variable is set to a non-empty string, and "Not Set" when it is unset
    or empty, whatever the store handle is; the values written from the
    handle, its name included, are always overwritten. *)
Theorem test_database_env_fields (db : option db_handle)
    (getenv : string → option string) :
  dict_get (test_database db getenv) "database_url" PNone
  = PStr (match getenv "DATABASE_URL" with
          | Some (String _ _) => "✅ Set"
          | Some EmptyString | None => "❌ Not Set"
          end) ∧
  dict_get (test_database db getenv) "database_name" PNone
  = PStr (match getenv "DATABASE_NAME" with
          | Some (String _ _) => "✅ Set"
          | Some EmptyString | None => "❌ Not Set"
          end).
Proof.
  unfold test_database, getenv_set.
  destruct (getenv "DATABASE_URL") as [[|c1 s1]|],
           (getenv "DATABASE_NAME") as [[|c2 s2]|];
    destruct db as [[name [e|collections]]|]; split; reflexivity.
Qed.

(** X14: the diagnostic lists at most ten collections, the first ones
    the handle returns in their order, and none when there is no handle
    or when listing raises. *)
Theorem test_database_collections (db : option db_handle)
    (getenv : string → option string) :
  ∃ shown : list string,
    dict_get (test_database db getenv) "collections" PNone = PList (PStr <$> shown) ∧
    (length shown ≤ 10)%nat ∧
    match db with
    | Some h =>
        match handle_list_collection_names h with
        | inr collections =>
            shown `prefix_of` collections ∧
            length shown = Nat.min 10 (length collections)
        | inl _ => shown = []
        end
    | None => shown = []
    end.
Proof.
  destruct db as [[name [e|collections]]|].
  - exists []. split; [reflexivity|]. split; [cbn; lia|reflexivity].
  - exists (take 10 collections). split; [reflexivity|].
    rewrite length_take. split; [lia|]. split; [apply prefix_take|reflexivity].
  - exists []. split; [reflexivity|]. split; [cbn; lia|reflexivity].
Qed.


(** ** What the endpoints can store *)

Lemma handle_complete (r : request) (db : database) :
  map_Forall (λ _ doc, doc_complete doc) (player db) →
  map_Forall (λ _ doc, doc_complete doc) (player (handle r db)).
Proof.
  intros Hdb. destruct r as [body|body]; cbn [handle].
  - run_handler.
    destruct (player db !! start_session_id body) as [doc|]; [exact Hdb|].
    cbn. apply map_Forall_insert_2; [|exact Hdb].
    unfold doc_complete; cbn. eauto 10.
  - rewrite submit_choice_own_record.
    destruct ((submit_choice body db).1) as [e|resp]; [exact Hdb|].
    apply map_Forall_insert_2; [|exact Hdb].
    unfold doc_complete; cbn. eauto 10.
Qed.

(** X16: whatever requests are made to the two endpoints, starting from
    the empty store, every player record stored has all four stat fields
    and every one of its values, relationship entries included, lies in
    [0,100]: the defaults are never needed for, and no out-of-range value
    is ever written to, a record the endpoints created themselves. *)
Theorem run_records_valid (rs : list request) (sid : string) (doc : player_doc) :
  player (run rs {| player := ∅; actionlog := [] |}) !! sid = Some doc →
  doc_complete doc ∧ player_in_range (read_player sid doc).
Proof.
  intros Hdoc. split.
  - revert sid doc Hdoc. change (map_Forall (λ _ doc, doc_complete doc)
      (player (run rs {| player := ∅; actionlog := [] |}))).
    unfold run.
    assert (Hgen : ∀ db, map_Forall (λ _ doc, doc_complete doc) (player db) →
                         map_Forall (λ _ doc, doc_complete doc)
                           (player (fold_left (λ db r, handle r db) rs db))).
    { induction rs as [|r rs IH]; intros db Hdb; cbn; [exact Hdb|].
      apply IH, handle_complete, Hdb. }
    apply Hgen. cbn. apply map_Forall_empty.
  - exact (run_in_range rs sid doc Hdoc).
Qed.

Lemma run_records_valid_witness :
  let rs := [Start (start_of "s1");
             Choice (choice_s1 "ethical" [("choice", PStr "participate")]);
             Choice (choice_s1 "professional" [("success", PBool false)])] in
  ∃ doc,
    player (run rs {| player := ∅; actionlog := [] |}) !! "s1" = Some doc ∧
    doc_complete doc ∧ player_in_range (read_player "s1" doc).
Proof.
  intros rs.
  destruct (player (run rs {| player := ∅; actionlog := [] |}) !! "s1")
    as [doc|] eqn:Hdoc; [|vm_compute in Hdoc; discriminate].
  exists doc. split; [reflexivity|].
  exact (run_records_valid rs "s1" doc Hdoc).
Defined.
